(** * funq, libFunq: the picker of [server/libFunq/pick.cpp]

    A shallow embedding of the scene-graph picker ([findQuickItemAt] and its
    helpers), of the window/widget resolver ([Pick::computeHighlightTarget]),
    of the event router ([Pick::handleEvent]) and of the geometry part of the
    reporter ([PickFormatter::handle]), followed by the properties that the
    specification states about them.

    Conventions of the embedding.
    - [qreal] is read as an exact rational ([Q]); the one irrational
      operation, the length of a [QLineF], is rounded down to a multiple of
      2^-52.  [std::numeric_limits<qreal>::max()] is the rational value of
      the largest finite double.
    - [int] is a [Z] kept in the 32-bit two's complement range by [wrap32].
    - A [QQuickItem *] is an [ItemRef]: the item together with the chain of
      its parents, nearest first, which is what [parentItem()] walks.  Object
      identity (pointer comparison) is comparison of the [addr] field.
    - Toolkit methods that the code only calls are small functions over the
      records of items, widgets and windows, with the semantics of Qt 5;
      item transforms are translations.
    - The build is the one with widgets, Qt >= 5 and Qt Quick
      ([QT_NO_WIDGETS] undefined, [QT_QUICK_LIB] defined). *)

From Stdlib Require Import ZArith QArith Qabs Qminmax Qround List String Ascii Bool Lia Lqa.
Import ListNotations.

#[local] Set Warnings "-register-all".
#[local] Open Scope Z_scope.

(** ** Numbers *)

Abbreviation qreal := Q (only parsing).

Definition Qlt_bool (a b : Q) : bool := negb (Qle_bool b a).

(** [std::numeric_limits<double>::max()], (2^53 - 1) * 2^971. *)
Definition DBL_MAX : Q := inject_Z ((2 ^ 53 - 1) * 2 ^ 971).

(** [qSqrt], rounded down to a multiple of 2^-52. *)
Definition qSqrt (q : Q) : Q :=
  (inject_Z (Z.sqrt (Qfloor (q * inject_Z (2 ^ 104)))) / inject_Z (2 ^ 52))%Q.

(** [qFuzzyCompare(double, double)] of qglobal.h. *)
Definition qFuzzyCompare (p1 p2 : qreal) : bool :=
  Qle_bool (Qabs (p1 - p2) * 1000000000000)%Q (Qmin (Qabs p1) (Qabs p2)).

(** 32-bit [int]: the representative of a [Z] in [-2^31, 2^31). *)
Definition wrap32 (n : Z) : Z := (n + 2 ^ 31) mod 2 ^ 32 - 2 ^ 31.

(** [qRound(double)] of Qt 5, [d >= 0 ? int(d + 0.5) : int(d - int(d-1) + 0.5)
    + int(d-1)], which is the floor of [d + 1/2]. *)
Definition qRound (d : qreal) : Z := wrap32 (Qfloor (d + (1 # 2))).

(** [static_cast<int>(double)]: truncation toward zero. *)
Definition truncToInt (d : qreal) : Z :=
  wrap32 (if Qle_bool 0%Q d then Qfloor d else Qceiling d).

Definition qMax (a b : Z) : Z := if a <? b then b else a.

(** ** Points and rectangles *)

Record QPointF := mkPointF { pfx : qreal; pfy : qreal }.

Record QRectF := mkRectF { rfx : qreal; rfy : qreal; rfw : qreal; rfh : qreal }.

Module RectF.
Definition isEmpty (r : QRectF) : bool :=
  Qle_bool (rfw r) 0 || Qle_bool (rfh r) 0.
Definition isNull (r : QRectF) : bool :=
  Qeq_bool (rfw r) 0 && Qeq_bool (rfh r) 0.
Definition center (r : QRectF) : QPointF :=
  mkPointF (rfx r + rfw r / 2)%Q (rfy r + rfh r / 2)%Q.
Definition area (r : QRectF) : qreal := (rfw r * rfh r)%Q.
Definition null : QRectF := mkRectF 0%Q 0%Q 0%Q 0%Q.
End RectF.

(** [QLineF(p1, p2).length()]. *)
Definition QLineF_length (p1 p2 : QPointF) : qreal :=
  let dx := (pfx p2 - pfx p1)%Q in
  let dy := (pfy p2 - pfy p1)%Q in
  qSqrt (dx * dx + dy * dy).

Record QPoint := mkPoint { ptx : Z; pty : Z }.
Record QSize := mkSize { szw : Z; szh : Z }.

(** [QRect] keeps its two corners, as in qrect.h. *)
Record QRect := mkRect { x1 : Z; y1 : Z; x2 : Z; y2 : Z }.

Module Rect.
Definition make (topLeft : QPoint) (size : QSize) : QRect :=
  mkRect (ptx topLeft) (pty topLeft)
         (wrap32 (ptx topLeft + szw size - 1))
         (wrap32 (pty topLeft + szh size - 1)).
Definition width (r : QRect) : Z := wrap32 (x2 r - x1 r + 1).
Definition height (r : QRect) : Z := wrap32 (y2 r - y1 r + 1).
Definition topLeft (r : QRect) : QPoint := mkPoint (x1 r) (y1 r).
Definition size (r : QRect) : QSize := mkSize (width r) (height r).
(** [QRect::contains(const QPoint &, bool proper = false)]. *)
Definition contains (r : QRect) (p : QPoint) : bool :=
  let '(l, rr) := if x2 r <? x1 r - 1 then (x2 r, x1 r) else (x1 r, x2 r) in
  let '(t, b) := if y2 r <? y1 r - 1 then (y2 r, y1 r) else (y1 r, y2 r) in
  negb ((ptx p <? l) || (rr <? ptx p)) && negb ((pty p <? t) || (b <? pty p)).
Definition toRectF (r : QRect) : QRectF :=
  mkRectF (inject_Z (x1 r)) (inject_Z (y1 r))
          (inject_Z (width r)) (inject_Z (height r)).
End Rect.

Definition point_add (a b : QPoint) : QPoint :=
  mkPoint (wrap32 (ptx a + ptx b)) (wrap32 (pty a + pty b)).
Definition point_sub (a b : QPoint) : QPoint :=
  mkPoint (wrap32 (ptx a - ptx b)) (wrap32 (pty a - pty b)).
Definition toPointF (p : QPoint) : QPointF :=
  mkPointF (inject_Z (ptx p)) (inject_Z (pty p)).

(** ** Scene-graph items *)

(** A [QQuickItem] as the picker observes it.  [visible] and [enabled] are
    what [isVisible()] and [isEnabled()] answer, [opacity] and [z] the item's
    own properties, [x], [y], [width], [height] its geometry in the parent's
    coordinates.  [contains()] is virtual: [shape] is [Some f] for an item
    that overrides it or carries a containment mask, [None] for the default
    test against the item's rectangle. *)
Module QQuickItem.
Inductive t := Make {
  addr : Z;
  className : string;
  baseClasses : list string;
  visible : bool;
  enabled : bool;
  opacity : qreal;
  z : qreal;
  x : qreal;
  y : qreal;
  width : qreal;
  height : qreal;
  shape : option (QPointF -> bool);
  childItems : list t
}.

(** [QObject::inherits]: the class itself or one of its bases. *)
Definition inherits (it : t) (name : string) : bool :=
  String.eqb (className it) name
  || existsb (fun b => String.eqb b name) (baseClasses it).

(** [QQuickItem::contains(const QPointF &)], in local coordinates; by
    default the item's rectangle, its edges included. *)
Definition contains (it : t) (p : QPointF) : bool :=
  match shape it with
  | Some f => f p
  | None => Qle_bool 0 (pfx p) && Qle_bool 0 (pfy p)
            && Qle_bool (pfx p) (width it) && Qle_bool (pfy p) (height it)
  end.

(** [QQuickItem::boundingRect()]. *)
Definition boundingRect (it : t) : QRectF :=
  mkRectF 0%Q 0%Q (width it) (height it).
End QQuickItem.

(** A non-null [QQuickItem *]. *)
Record ItemRef := mkRef {
  item : QQuickItem.t;
  ancestors : list QQuickItem.t
}.

Definition ptr_eqb (a b : ItemRef) : bool :=
  QQuickItem.addr (item a) =? QQuickItem.addr (item b).

(** [QQuickItem::parentItem()]. *)
Definition parentItem (r : ItemRef) : option ItemRef :=
  match ancestors r with
  | [] => None
  | p :: ps => Some (mkRef p ps)
  end.

(** Position of the item's origin in the scene. *)
Definition sceneOrigin (r : ItemRef) : QPointF :=
  fold_left
    (fun acc a => mkPointF (pfx acc + QQuickItem.x a)%Q (pfy acc + QQuickItem.y a)%Q)
    (ancestors r)
    (mkPointF (QQuickItem.x (item r)) (QQuickItem.y (item r))).

Definition mapFromScene (r : ItemRef) (p : QPointF) : QPointF :=
  let o := sceneOrigin r in mkPointF (pfx p - pfx o)%Q (pfy p - pfy o)%Q.

Definition mapToScene (r : ItemRef) (p : QPointF) : QPointF :=
  let o := sceneOrigin r in mkPointF (pfx p + pfx o)%Q (pfy p + pfy o)%Q.

Definition mapRectToScene (r : ItemRef) (rc : QRectF) : QRectF :=
  let o := sceneOrigin r in
  mkRectF (rfx rc + pfx o)%Q (rfy rc + pfy o)%Q (rfw rc) (rfh rc).

(** The test of [QQuickItem::childAt(x, y)] on one child, the point being in
    the parent's coordinates. *)
Definition childAt_hit (px py : qreal) (child : QQuickItem.t) : bool :=
  let cx := (px - QQuickItem.x child)%Q in
  let cy := (py - QQuickItem.y child)%Q in
  QQuickItem.visible child
  && Qle_bool 0 cx && Qlt_bool cx (QQuickItem.width child)
  && Qle_bool 0 cy && Qlt_bool cy (QQuickItem.height child).

(** [QQuickItem::childAt] of Qt 5: the last child of [childItems()] that is
    visible and whose rectangle holds the point; the child's [contains()]
    is not asked. *)
Fixpoint childAt_in (px py : qreal) (children : list QQuickItem.t)
  : option QQuickItem.t :=
  match children with
  | [] => None
  | c :: rest =>
      match childAt_in px py rest with
      | Some later => Some later
      | None => if childAt_hit px py c then Some c else None
      end
  end.

Definition childAt (r : ItemRef) (px py : qreal) : option ItemRef :=
  match childAt_in px py (QQuickItem.childItems (item r)) with
  | Some c => Some (mkRef c (item r :: ancestors r))
  | None => None
  end.

(** ** The scene-graph picker *)

(** [isPickableItem(item, scenePos, &localPoint)]: [None] is [false],
    [Some local] is [true] with the local point written out. *)
Definition isPickableItem (it : option ItemRef) (scenePos : QPointF)
  : option QPointF :=
  match it with
  | None => None
  | Some r =>
      if negb (QQuickItem.visible (item r))
         || negb (QQuickItem.enabled (item r))
         || Qle_bool (QQuickItem.opacity (item r)) 0
      then None
      else
        let local := mapFromScene r scenePos in
        if negb (QQuickItem.contains (item r) local) then None
        else Some local
  end.

Definition kButtonTypes : list string :=
  [ "QQuickAbstractButton"; "QQuickButton"; "QQuickToolButton";
    "QQuickCheckBox"; "QQuickRadioButton"; "QQuickSwitch";
    "QQuickMenuItem" ]%string.

Definition toLower (c : ascii) : ascii :=
  let n := nat_of_ascii c in
  if (65 <=? n)%nat && (n <=? 90)%nat then ascii_of_nat (n + 32) else c.

Fixpoint lowerCase (s : string) : string :=
  match s with
  | EmptyString => EmptyString
  | String c rest => String (toLower c) (lowerCase rest)
  end.

Fixpoint hasSubstring (needle s : string) : bool :=
  if String.prefix needle s then true
  else match s with
       | EmptyString => false
       | String _ rest => hasSubstring needle rest
       end.

(** [QString::contains(str, Qt::CaseInsensitive)]. *)
Definition containsCaseInsensitive (s needle : string) : bool :=
  hasSubstring (lowerCase needle) (lowerCase s).

(** [isButtonLike(item)] for a non-null item. *)
Definition isButtonLike (it : QQuickItem.t) : bool :=
  if existsb (QQuickItem.inherits it) kButtonTypes then true
  else containsCaseInsensitive (QQuickItem.className it) "Button".

(** [childAt] with the continuation applied to the child it finds: the form
    under which the descent below is a structural recursion. *)
Definition childAt_then {A : Type} (px py : qreal) (k : QQuickItem.t -> A)
  : list QQuickItem.t -> option A :=
  fix go (children : list QQuickItem.t) : option A :=
    match children with
    | [] => None
    | c :: rest =>
        match go rest with
        | Some later => Some later
        | None => if childAt_hit px py c then Some (k c) else None
        end
    end.

(** The [for (;;)] loop of [deepestItemUnderPoint], entered at [current]. *)
Fixpoint deepest_loop (scenePos : QPointF) (parents : list QQuickItem.t)
  (current : QQuickItem.t) {struct current} : ItemRef :=
  let cur := mkRef current parents in
  let local := mapFromScene cur scenePos in
  match
    childAt_then (pfx local) (pfy local)
      (fun next =>
         if negb (QQuickItem.visible next) || negb (QQuickItem.enabled next)
            || Qle_bool (QQuickItem.opacity next) 0
         then cur
         else deepest_loop scenePos (current :: parents) next)
      (QQuickItem.childItems current)
  with
  | None => cur
  | Some r => r
  end.

Definition deepestItemUnderPoint (root : option ItemRef) (scenePos : QPointF)
  : option ItemRef :=
  match root with
  | None => None
  | Some r =>
      let rootLocal := mapFromScene r scenePos in
      if negb (QQuickItem.visible (item r))
         || negb (QQuickItem.enabled (item r))
         || Qle_bool (QQuickItem.opacity (item r)) 0
         || negb (QQuickItem.contains (item r) rootLocal)
      then None
      else Some (deepest_loop scenePos (ancestors r) (item r))
  end.

(** The loop of [promoteToButtonAncestor]: the first button-like item on the
    way from [it] up through its parents, if there is one. *)
Fixpoint firstButtonLike (it : QQuickItem.t) (parents : list QQuickItem.t)
  : option ItemRef :=
  if isButtonLike it then Some (mkRef it parents)
  else match parents with
       | [] => None
       | p :: ps => firstButtonLike p ps
       end.

Definition promoteToButtonAncestor (leaf : ItemRef) : ItemRef :=
  match firstButtonLike (item leaf) (ancestors leaf) with
  | Some button => button
  | None => leaf
  end.

(** [std::sort], as an insertion sort by the comparator. *)
Fixpoint sort_insert {A : Type} (less : A -> A -> bool) (a : A) (l : list A)
  : list A :=
  match l with
  | [] => [a]
  | b :: rest => if less a b then a :: b :: rest
                 else b :: sort_insert less a rest
  end.

Definition std_sort {A : Type} (less : A -> A -> bool) (l : list A) : list A :=
  fold_right (sort_insert less) [] l.

(** The comparator of the sort in [findQuickItemAt]. *)
Definition childLess (left right : QQuickItem.t) : bool :=
  if qFuzzyCompare (QQuickItem.z left) (QQuickItem.z right)
  then QQuickItem.addr left <? QQuickItem.addr right
  else Qlt_bool (QQuickItem.z left) (QQuickItem.z right).

Definition kDistEps : qreal := 0.75%Q.
Definition kAreaEps : qreal := 1%Q.
Definition kButtonBoostPx : qreal := 4%Q.

Definition isNonNull {A : Type} (p : option A) : bool :=
  match p with
  | Some _ => true
  | None => false
  end.

(** [bestItem], [bestDist], [bestArea] of the ranking loop. *)
Record Best := mkBest {
  bestItem : option ItemRef;
  bestDist : qreal;
  bestArea : qreal
}.

(** [getenv("FUNQ_MODE_PICK_LARGEST")] compared with ["1"]. *)
Definition preferLargestArea (env : option string) : bool :=
  match env with
  | Some v => String.eqb v "1"
  | None => false
  end.

Definition initialBest (largest : bool) : Best :=
  mkBest None DBL_MAX (if largest then (- DBL_MAX)%Q else DBL_MAX).

(** One iteration of [for (QQuickItem *candidate : found)]. *)
Definition rankStep (largest preferButtons : bool) (scenePos : QPointF)
  (best : Best) (candidate : ItemRef) : Best :=
  let rect := mapRectToScene candidate (QQuickItem.boundingRect (item candidate)) in
  if RectF.isEmpty rect then best
  else
    let area := (rfw rect * rfh rect)%Q in
    let dist := QLineF_length (RectF.center rect) scenePos in
    let better := false in
    let candIsBtn := preferButtons && isButtonLike (item candidate) in
    let bestIsBtn :=
      preferButtons
      && match bestItem best with
         | Some b => isButtonLike (item b)
         | None => false
         end in
    let better :=
      if preferButtons && isNonNull (bestItem best) then
        if candIsBtn && negb bestIsBtn then
          if Qle_bool dist (bestDist best + kButtonBoostPx) then true else better
        else if negb candIsBtn && bestIsBtn then
          if Qle_bool (bestDist best) (dist + kButtonBoostPx) then false else better
        else better
      else better in
    let better :=
      if negb better then
        if Qlt_bool (dist + kDistEps) (bestDist best) then true
        else if Qle_bool (Qabs (dist - bestDist best)) kDistEps then
          let better :=
            if largest then
              if Qlt_bool (bestArea best + kAreaEps) area then true else better
            else
              if Qlt_bool (area + kAreaEps) (bestArea best) then true else better in
          if negb better && preferButtons then
            if candIsBtn && negb bestIsBtn then true else better
          else better
        else better
      else better in
    if better then mkBest (Some candidate) dist area else best.

(** The refinement block: precise hit test, then promotion. *)
Definition refineBest (preferButtons : bool) (scenePos : QPointF)
  (best : ItemRef) : ItemRef :=
  if preferButtons then
    match deepestItemUnderPoint (Some best) scenePos with
    | Some leaf =>
        let button := promoteToButtonAncestor leaf in
        if negb (ptr_eqb button best) then button else best
    | None => best
    end
  else best.

(** [findQuickItemAt] from the point where [found] has been collected. *)
Definition pickFrom (env : option string) (scenePos : QPointF)
  (preferButtons : bool) (self : ItemRef) (found : list ItemRef)
  : option ItemRef :=
  let largest := preferLargestArea env in
  let fallback :=
    match isPickableItem (Some self) scenePos with
    | None => None
    | Some _ => Some self
    end in
  match found with
  | [] => fallback
  | _ :: _ =>
      let best :=
        fold_left (rankStep largest preferButtons scenePos) found
                  (initialBest largest) in
      match bestItem best with
      | Some b => Some (refineBest preferButtons scenePos b)
      | None => fallback
      end
  end.

(** The hits of the children, topmost child first. *)
Definition collectHits (hits : list (QQuickItem.t * option ItemRef))
  : list ItemRef :=
  flat_map (fun ch => match snd ch with Some hit => [hit] | None => [] end)
           (rev (std_sort (fun l r => childLess (fst l) (fst r)) hits)).

(** [findQuickItemAt] on a non-null item whose parents are [parents].  Each
    child is paired with the result of the recursive call on it before the
    sort, so that the recursion is structural. *)
Fixpoint findQuickItemAt_rec (env : option string) (scenePos : QPointF)
  (preferButtons : bool) (parents : list QQuickItem.t) (it : QQuickItem.t)
  {struct it} : option ItemRef :=
  let hits :=
    map (fun child =>
           (child,
            findQuickItemAt_rec env scenePos preferButtons (it :: parents) child))
        (QQuickItem.childItems it) in
  pickFrom env scenePos preferButtons (mkRef it parents) (collectHits hits).

Definition findQuickItemAt (env : option string) (root : option ItemRef)
  (scenePos : QPointF) (preferButtons : bool) : option ItemRef :=
  match root with
  | None => None
  | Some r => findQuickItemAt_rec env scenePos preferButtons (ancestors r) (item r)
  end.

(** ** Widgets, windows and the objects an event can target *)

(** A [QWidget]: [wOrigin] is [mapToGlobal(QPoint(0, 0))]. *)
Record QWidget := mkWidget {
  wAddr : Z;
  wOrigin : QPoint;
  wSize : QSize
}.

Module Widget.
Definition rect (w : QWidget) : QRect := Rect.make (mkPoint 0 0) (wSize w).
Definition mapToGlobal (w : QWidget) (p : QPoint) : QPoint :=
  point_add p (wOrigin w).
Definition mapFromGlobal (w : QWidget) (p : QPoint) : QPoint :=
  point_sub p (wOrigin w).
End Widget.

(** What [qobject_cast<QQuickWindow *>(window)] and [contentItem()] give. *)
Inductive QuickContent :=
| NotQuickWindow
| QuickWindow (contentItem : option QQuickItem.t).

Record QWindow := mkWindow {
  winAddr : Z;
  winVisible : bool;
  winOrigin : QPoint;
  winSize : QSize;
  winQuick : QuickContent
}.

Module Window.
Definition mapToGlobal (w : QWindow) (p : QPoint) : QPoint :=
  point_add p (winOrigin w).
Definition mapFromGlobal (w : QWindow) (p : QPoint) : QPoint :=
  point_sub p (winOrigin w).
End Window.

(** A non-null [QObject *]. *)
Inductive QObject :=
| WidgetObject (w : QWidget)
| WindowObject (w : QWindow)
| QuickItemObject (r : ItemRef)
| OtherObject (addr : Z).

(** [QCoreApplication::instance()], by its most derived application class. *)
Inductive Application := NoApplication | CoreApplication | GuiApplication | WidgetApplication.

Definition isQApplication (app : Application) : bool :=
  match app with WidgetApplication => true | _ => false end.

Definition isQGuiApplication (app : Application) : bool :=
  match app with GuiApplication | WidgetApplication => true | _ => false end.

(** What the toolkit answers while one event is handled. *)
Record Screen := mkScreen {
  widgetAt : QPoint -> option QWidget;
  topLevelWindows : list (option QWindow)
}.

(** ** The highlight overlay *)

Inductive OverlayKind := WidgetHighlightOverlay | WindowHighlightOverlay.

(** Both overlays keep a geometry and a visibility: that of [m_band] for the
    widget overlay, that of the window itself for the window overlay. *)
Record HighlightOverlay := mkOverlay {
  overlayKind : OverlayKind;
  overlayGeometry : QRect;
  overlayVisible : bool
}.

Module Overlay.
(** [showRect]: [setGeometry], then [show()] unless already visible. *)
Definition showRect (o : HighlightOverlay) (globalRect : QRect) : HighlightOverlay :=
  let o1 := mkOverlay (overlayKind o) globalRect (overlayVisible o) in
  if negb (overlayVisible o1)
  then mkOverlay (overlayKind o1) (overlayGeometry o1) true
  else o1.
(** [hide]: [hide()] if visible. *)
Definition hide (o : HighlightOverlay) : HighlightOverlay :=
  if overlayVisible o
  then mkOverlay (overlayKind o) (overlayGeometry o) false
  else o.
End Overlay.

(** ** The picker object *)

(** One call [m_handler->handle(target, pos)]. *)
Record HandleCall := mkCall { callTarget : option QObject; callPos : QPoint }.

(** A [PickHandler], by the calls it has received, oldest first. *)
Record PickHandler := mkHandler { handled : list HandleCall }.

Record Pick := mkPick {
  m_handler : option PickHandler;
  m_highlightOverlay : option HighlightOverlay;
  m_hasWidgetStack : bool;
  m_highlightTarget : option QObject;
  m_highlightPos : QPoint
}.

(** [Pick::Pick(handler, parent)]. *)
Definition Pick_new (app : Application) (handler : option PickHandler) : Pick :=
  let p := mkPick handler None false None (mkPoint 0 0) in
  let p :=
    if isQApplication app
    then mkPick (m_handler p)
                (Some (mkOverlay WidgetHighlightOverlay (mkRect 0 0 (-1) (-1)) false))
                true (m_highlightTarget p) (m_highlightPos p)
    else p in
  if negb (isNonNull (m_highlightOverlay p)) && isQGuiApplication app
  then mkPick (m_handler p)
              (Some (mkOverlay WindowHighlightOverlay (mkRect 0 0 (-1) (-1)) false))
              (m_hasWidgetStack p) (m_highlightTarget p) (m_highlightPos p)
  else p.

(** [Pick::showHighlight]. *)
Definition showHighlight (p : Pick) (globalRect : QRect) : Pick :=
  match m_highlightOverlay p with
  | Some o => mkPick (m_handler p) (Some (Overlay.showRect o globalRect))
                     (m_hasWidgetStack p) (m_highlightTarget p) (m_highlightPos p)
  | None => p
  end.

(** [Pick::hideHighlight]. *)
Definition hideHighlight (p : Pick) : Pick :=
  let p :=
    match m_highlightOverlay p with
    | Some o => mkPick (m_handler p) (Some (Overlay.hide o))
                       (m_hasWidgetStack p) (m_highlightTarget p) (m_highlightPos p)
    | None => p
    end in
  mkPick (m_handler p) (m_highlightOverlay p) (m_hasWidgetStack p) None
         (m_highlightPos p).

(** The out-parameters of a successful [computeHighlightTarget]. *)
Record Candidate := mkCandidate {
  outRect : QRect;
  target : QObject;
  localPos : QPoint
}.

(** The scene-graph branch of the window loop, for a [QQuickWindow] with a
    content item. *)
Definition quickCandidate (env : option string) (window : QWindow)
  (content : QQuickItem.t) (globalPos : QPoint) (buttonsOnly : bool)
  : option Candidate :=
  let windowPos := Window.mapFromGlobal window globalPos in
  let scenePos := toPointF windowPos in
  let contentRef := mkRef content [] in
  match findQuickItemAt env (Some contentRef) scenePos buttonsOnly with
  | Some quickItem =>
      if negb (ptr_eqb quickItem contentRef) then
        let sceneTopLeft := mapToScene quickItem (mkPointF 0 0) in
        let globalTopLeft :=
          Window.mapToGlobal window
            (mkPoint (qRound (pfx sceneTopLeft)) (qRound (pfy sceneTopLeft))) in
        let size :=
          mkSize (qMax 1 (qRound (QQuickItem.width (item quickItem))))
                 (qMax 1 (qRound (QQuickItem.height (item quickItem)))) in
        let localPoint := mapFromScene quickItem scenePos in
        Some (mkCandidate (Rect.make globalTopLeft size)
                          (QuickItemObject quickItem)
                          (mkPoint (truncToInt (pfx localPoint))
                                   (truncToInt (pfy localPoint))))
      else None
  | None => None
  end.

(** The loop over [QGuiApplication::topLevelWindows()]. *)
Fixpoint windowCandidate (env : option string) (windows : list (option QWindow))
  (globalPos : QPoint) (buttonsOnly : bool) : option Candidate :=
  match windows with
  | [] => None
  | None :: rest => windowCandidate env rest globalPos buttonsOnly
  | Some window :: rest =>
      if negb (winVisible window)
      then windowCandidate env rest globalPos buttonsOnly
      else
        let rect := Rect.make (Window.mapToGlobal window (mkPoint 0 0))
                              (winSize window) in
        if negb (Rect.contains rect globalPos)
        then windowCandidate env rest globalPos buttonsOnly
        else
          let quick :=
            match winQuick window with
            | QuickWindow (Some content) =>
                quickCandidate env window content globalPos buttonsOnly
            | _ => None
            end in
          match quick with
          | Some c => Some c
          | None =>
              Some (mkCandidate rect (WindowObject window)
                                (point_sub globalPos (Rect.topLeft rect)))
          end
  end.

(** [Pick::computeHighlightTarget]: [Some] of the out-parameters when it
    returns [true], [None] when it returns [false] (with [target = 0]). *)
Definition computeHighlightTarget (app : Application) (env : option string)
  (screen : Screen) (p : Pick) (globalPos : QPoint) (buttonsOnly : bool)
  : option Candidate :=
  let widget := if m_hasWidgetStack p then widgetAt screen globalPos else None in
  match widget with
  | Some w =>
      let rect := Widget.rect w in
      let topLeft := Widget.mapToGlobal w (Rect.topLeft rect) in
      Some (mkCandidate (Rect.make topLeft (Rect.size rect))
                        (WidgetObject w)
                        (Widget.mapFromGlobal w globalPos))
  | None =>
      if negb (isQGuiApplication app) then None
      else windowCandidate env (topLevelWindows screen) globalPos buttonsOnly
  end.

(** ** Events *)

Inductive EventType := MouseMove | MouseButtonPress | MouseButtonRelease | OtherEventType.

Record KeyboardModifiers := mkMods {
  ShiftModifier : bool;
  ControlModifier : bool;
  AltModifier : bool
}.

(** A [QEvent]; the last three fields are those of a [QMouseEvent]. *)
Record QEvent := mkEvent {
  type : EventType;
  modifiers : KeyboardModifiers;
  globalPos : QPoint;
  pos : QPoint
}.

Definition isMouseEvent (t : EventType) : bool :=
  match t with
  | MouseMove | MouseButtonPress | MouseButtonRelease => true
  | OtherEventType => false
  end.

Definition isPress (t : EventType) : bool :=
  match t with MouseButtonPress => true | _ => false end.

Definition isRelease (t : EventType) : bool :=
  match t with MouseButtonRelease => true | _ => false end.

(** [m_handler->handle(target, pos)]. *)
Definition callHandler (p : Pick) (t : option QObject) (at_ : QPoint) : Pick :=
  match m_handler p with
  | Some h =>
      mkPick (Some (mkHandler (handled h ++ [mkCall t at_])))
             (m_highlightOverlay p) (m_hasWidgetStack p)
             (m_highlightTarget p) (m_highlightPos p)
  | None => p
  end.

(** The three branches of [handleEvent] that show or hide the highlight. *)
Definition updateHighlight (p : Pick) (highlightMode : bool)
  (candidate : option Candidate) : Pick :=
  let hasCandidate := isNonNull candidate in
  let candidateRect :=
    match candidate with
    | Some c => outRect c
    | None => mkRect 0 0 (-1) (-1)
    end in
  let candidateTarget := option_map target candidate in
  let candidatePos :=
    match candidate with
    | Some c => localPos c
    | None => mkPoint 0 0
    end in
  if highlightMode && hasCandidate then
    let p := showHighlight p candidateRect in
    mkPick (m_handler p) (m_highlightOverlay p) (m_hasWidgetStack p)
           candidateTarget candidatePos
  else if highlightMode then hideHighlight p
  else hideHighlight p.

(** The block of [handleEvent] for a press with Ctrl+Shift: the choice of
    [target] and [pos], and the call of the handler. *)
Definition reportPress (p : Pick) (highlightMode : bool)
  (candidate : option Candidate) (receiver : option QObject) (event : QEvent)
  : Pick :=
  let hasCandidate := isNonNull candidate in
  let candidateTarget := option_map target candidate in
  let candidatePos :=
    match candidate with
    | Some c => localPos c
    | None => mkPoint 0 0
    end in
  let remembered := highlightMode && isNonNull (m_highlightTarget p) in
  let t :=
    if remembered then m_highlightTarget p
    else if hasCandidate then candidateTarget else receiver in
  let at_ :=
    if remembered then m_highlightPos p
    else if hasCandidate then candidatePos else pos event in
  let '(t, at_) :=
    if negb (isNonNull t) then (receiver, pos event) else (t, at_) in
  callHandler p t at_.

(** [Pick::handleEvent(receiver, event)]: the value returned and the picker
    afterwards. *)
Definition handleEvent (app : Application) (env : option string)
  (screen : Screen) (p : Pick) (receiver : option QObject) (event : QEvent)
  : bool * Pick :=
  if negb (isNonNull (m_handler p)) then (false, p)
  else if isMouseEvent (type event) then
    let mods := modifiers event in
    let ctrlShift := ShiftModifier mods && ControlModifier mods in
    let highlightMode := ctrlShift in
    let buttonsOnly := AltModifier mods in
    let candidate :=
      computeHighlightTarget app env screen p (globalPos event) buttonsOnly in
    let p := updateHighlight p highlightMode candidate in
    if isPress (type event) && ctrlShift then
      (true, reportPress p highlightMode candidate receiver event)
    else if isRelease (type event) && ctrlShift then (true, p)
    else (false, p)
  else (false, p).

(** ** The reporter *)

(** A [QVariant]: the values an object property can hold, as far as the
    formatter tells them apart.  [VOther] is a valid value of any type that
    converts neither to a number, nor to a rectangle, nor to a map. *)
Inductive QVariant :=
| VInvalid
| VDouble (d : qreal)
| VInt (i : Z)
| VBool (b : bool)
| VRect (r : QRect)
| VMap (m : list (string * QVariant))
| VOther.

Module Variant.
Definition isValid (v : QVariant) : bool :=
  match v with VInvalid => false | _ => true end.
(** [toDouble(&ok)]: the value and [ok]. *)
Definition toDouble (v : QVariant) : qreal * bool :=
  match v with
  | VDouble d => (d, true)
  | VInt i => (inject_Z i, true)
  | VBool b => ((if b then 1 else 0)%Q, true)
  | _ => (0%Q, false)
  end.
(** [toInt(&ok)]. *)
Definition toInt (v : QVariant) : Z * bool :=
  match v with
  | VDouble d => (qRound d, true)
  | VInt i => (i, true)
  | VBool b => (if b then 1 else 0, true)
  | _ => (0, false)
  end.
Definition canConvertRect (v : QVariant) : bool :=
  match v with VRect _ => true | _ => false end.
Definition toRect (v : QVariant) : QRect :=
  match v with VRect r => r | _ => mkRect 0 0 (-1) (-1) end.
Definition canConvertMap (v : QVariant) : bool :=
  match v with VMap _ => true | _ => false end.
Definition toMap (v : QVariant) : list (string * QVariant) :=
  match v with VMap m => m | _ => [] end.
End Variant.

(** [QVariantMap::contains] and [QVariantMap::value]. *)
Fixpoint map_value (m : list (string * QVariant)) (key : string) : QVariant :=
  match m with
  | [] => VInvalid
  | (k, v) :: rest => if String.eqb k key then v else map_value rest key
  end.

Fixpoint map_contains (m : list (string * QVariant)) (key : string) : bool :=
  match m with
  | [] => false
  | (k, _) :: rest => String.eqb k key || map_contains rest key
  end.

(** An object as the formatter reads it: its properties by name. *)
Record ReportedObject := mkObject { properties : list (string * QVariant) }.

(** [QObject::property(name)]: an invalid variant when there is none. *)
Definition property (object : ReportedObject) (name : string) : QVariant :=
  map_value (properties object) name.

(** [readRealProperty(object, name, target)]: [Some] of the value written to
    [target] when it returns [true]. *)
Definition readRealProperty (object : ReportedObject) (name : string)
  : option qreal :=
  let value := property object name in
  if negb (Variant.isValid value) then None
  else
    let '(asDouble, ok) := Variant.toDouble value in
    let '(asDouble, ok) :=
      if negb ok
      then let '(i, ok) := Variant.toInt value in (inject_Z i, ok)
      else (asDouble, ok) in
    if negb ok then None else Some asDouble.

(** The local [target] of a read that may leave it untouched. *)
Definition readInto (r : option qreal) (target : qreal) : qreal :=
  match r with
  | Some v => v
  | None => target
  end.

(** The [m_showGeometry] block of [PickFormatter::handle]: the rectangle of
    the "Geometry:" line, if the line is written. *)
Definition reportedGeometry (m_showGeometry : bool) (object : ReportedObject)
  : option QRectF :=
  if m_showGeometry then
    let geomVar := property object "geometry" in
    let rect :=
      if Variant.isValid geomVar && Variant.canConvertRect geomVar then
        Rect.toRectF (Variant.toRect geomVar)
      else if Variant.isValid geomVar && Variant.canConvertMap geomVar then
        let geomMap := Variant.toMap geomVar in
        if map_contains geomMap "x" && map_contains geomMap "y"
           && map_contains geomMap "width" && map_contains geomMap "height"
        then mkRectF (fst (Variant.toDouble (map_value geomMap "x")))
                     (fst (Variant.toDouble (map_value geomMap "y")))
                     (fst (Variant.toDouble (map_value geomMap "width")))
                     (fst (Variant.toDouble (map_value geomMap "height")))
        else RectF.null
      else
        let rx := readRealProperty object "x" in
        let x := readInto rx 0%Q in
        let ry := if isNonNull rx then readRealProperty object "y" else None in
        let y := readInto ry 0%Q in
        let hasPos := isNonNull rx && isNonNull ry in
        let rwidth := readRealProperty object "width" in
        let width := readInto rwidth 0%Q in
        let rheight :=
          if isNonNull rwidth then readRealProperty object "height" else None in
        let height := readInto rheight 0%Q in
        let hasSize := isNonNull rwidth && isNonNull rheight in
        let riw :=
          if negb hasSize then readRealProperty object "implicitWidth" else None in
        let width := readInto riw width in
        let rih :=
          if negb hasSize && isNonNull riw
          then readRealProperty object "implicitHeight" else None in
        let height := readInto rih height in
        let hasSize :=
          if negb hasSize then isNonNull riw && isNonNull rih else hasSize in
        if hasPos && hasSize && Qlt_bool 0 width && Qlt_bool 0 height
        then mkRectF x y width height
        else RectF.null in
    if negb (RectF.isNull rect) then Some rect else None
  else None.

(** ** Views of the picker used by the statements *)

(** [found] of [findQuickItemAt]: the children sorted by [childLess],
    walked from the last to the first, each non-null hit appended. *)
Definition foundHits (env : option string) (scenePos : QPointF)
  (preferButtons : bool) (parents : list QQuickItem.t) (it : QQuickItem.t)
  : list ItemRef :=
  flat_map
    (fun child =>
       match findQuickItemAt_rec env scenePos preferButtons (it :: parents) child with
       | Some hit => [hit]
       | None => []
       end)
    (rev (std_sort childLess (QQuickItem.childItems it))).

(** The ranking loop over a list of candidates. *)
Definition rankCandidates (env : option string) (preferButtons : bool)
  (scenePos : QPointF) (found : list ItemRef) : Best :=
  fold_left (rankStep (preferLargestArea env) preferButtons scenePos) found
            (initialBest (preferLargestArea env)).


(** ** Concrete scenes *)

(** An item of class [cls] that is visible, enabled, opaque, at [z = 0],
    with the default [contains()]. *)
Definition plainItem (addr : Z) (cls : string) (x y width height : qreal)
  (children : list QQuickItem.t) : QQuickItem.t :=
  QQuickItem.Make addr cls ["QQuickItem"; "QObject"]%string true true 1%Q 0%Q
                  x y width height None children.

(** A 10x10 content item and a child placed outside of it. *)
Definition outside_child : QQuickItem.t :=
  plainItem 2 "QQuickRectangle" 20 20 10 10 [].
Definition outside_root : QQuickItem.t :=
  plainItem 1 "QQuickItem" 0 0 10 10 [outside_child].

(** An invisible item with an invisible child. *)
Definition hidden_child : QQuickItem.t :=
  QQuickItem.Make 2 "QQuickRectangle" ["QQuickItem"]%string false true 1%Q 0%Q
                  0 0 10 10 None [].
Definition hidden_root : QQuickItem.t :=
  QQuickItem.Make 1 "QQuickItem" []%string false true 1%Q 0%Q
                  0 0 10 10 None [hidden_child].

(** The result of the refinement block, in words: the chosen candidate when
    the descent from it gives nothing; otherwise the first button-like item
    on the way up from the deepest leaf; otherwise that leaf. *)
Definition promotionResult (scenePos : QPointF) (best : ItemRef) : ItemRef :=
  match deepestItemUnderPoint (Some best) scenePos with
  | None => best
  | Some leaf =>
      match firstButtonLike (item leaf) (ancestors leaf) with
      | Some button => button
      | None => leaf
      end
  end.

(** A frame with a child whose [contains()] accepts the right half of its
    rectangle only, under a content item. *)
Definition masked_area : QQuickItem.t :=
  QQuickItem.Make 3 "QQuickMouseArea" ["QQuickItem"; "QObject"]%string
                  true true 1%Q 0%Q 0 0 50 50
                  (Some (fun p => Qle_bool 25 (pfx p))) [].
Definition masked_frame : QQuickItem.t :=
  plainItem 2 "QQuickRectangle" 0 0 100 100 [masked_area].
Definition masked_root : QQuickItem.t :=
  plainItem 1 "QQuickItem" 0 0 100 100 [masked_frame].

(** A button at [z = 1] over a rectangle at [z = 0]; the centers of the two
    are at 10 and at 8 from the point (50, 50). *)
Definition near_button : QQuickItem.t :=
  QQuickItem.Make 2 "QQuickButton"
                  ["QQuickAbstractButton"; "QQuickControl"; "QQuickItem"]%string
                  true true 1%Q 1%Q 10 0 100 100 None [].
Definition nearer_rectangle : QQuickItem.t :=
  plainItem 3 "QQuickRectangle" 8 0 100 100 [].
Definition button_scene : QQuickItem.t :=
  plainItem 1 "QQuickItem" 0 0 200 200 [nearer_rectangle; near_button].

(** A button of opacity 0 with a label inside. *)
Definition faded_label : QQuickItem.t :=
  plainItem 3 "QQuickText" 10 10 80 20 [].
Definition faded_button : QQuickItem.t :=
  QQuickItem.Make 2 "QQuickButton"
                  ["QQuickAbstractButton"; "QQuickControl"; "QQuickItem"]%string
                  true true 0%Q 0%Q 0 0 100 40 None [faded_label].
Definition faded_scene : QQuickItem.t :=
  plainItem 1 "QQuickItem" 0 0 200 200 [faded_button].

(** Two siblings with the same center (5/2, 1): a 2x2 square of area 4 and
    a 5x1 strip of area 5. *)
Definition tie_square : QQuickItem.t :=
  plainItem 2 "QQuickRectangle" (3 # 2) 0 2 2 [].

(** The same, the strip being 5x2, of area 10. *)
Definition tie_band : QQuickItem.t :=
  plainItem 3 "QQuickRectangle" 0 0 5 2 [].
Definition tie_scene_wide : QQuickItem.t :=
  plainItem 1 "QQuickItem" 0 0 10 10 [tie_square; tie_band].

(** The rectangle of a candidate in the scene. *)
Definition sceneRect (r : ItemRef) : QRectF :=
  mapRectToScene r (QQuickItem.boundingRect (item r)).

(** ** Views of the event router used by the statements *)

(** Whether the overlay is on screen; there may be no overlay at all. *)
Definition overlayShown (p : Pick) : bool :=
  match m_highlightOverlay p with
  | Some o => overlayVisible o
  | None => false
  end.

(** [highlightMode] of [handleEvent]: Shift and Ctrl both held. *)
Definition highlightModeOf (event : QEvent) : bool :=
  ShiftModifier (modifiers event) && ControlModifier (modifiers event).

(** The candidate that [handleEvent] resolves for an event. *)
Definition candidateOf (app : Application) (env : option string)
  (screen : Screen) (p : Pick) (event : QEvent) : option Candidate :=
  computeHighlightTarget app env screen p (globalPos event)
                         (AltModifier (modifiers event)).

(** The pickers of an application: the one its constructor builds, and those
    that handling an event leads to. *)
Inductive reachable (app : Application) (env : option string) : Pick -> Prop :=
| reachable_new (handler : option PickHandler) :
    reachable app env (Pick_new app handler)
| reachable_event (p : Pick) (screen : Screen) (receiver : option QObject)
    (event : QEvent) :
    reachable app env p ->
    reachable app env (snd (handleEvent app env screen p receiver event)).

(** A 100x100 widget at the origin of the screen. *)
Definition square_widget : QWidget := mkWidget 10 (mkPoint 0 0) (mkSize 100 100).

Definition widget_screen : Screen :=
  mkScreen (fun p => if Rect.contains (Rect.make (wOrigin square_widget)
                                                  (wSize square_widget)) p
                     then Some square_widget else None)
           [].

Definition mouseAt (t : EventType) (shift ctrl alt : bool) (x y : Z) : QEvent :=
  mkEvent t (mkMods shift ctrl alt) (mkPoint x y) (mkPoint x y).

(** The picker of a widget application after a move with Ctrl+Shift over
    the widget, and after a following move without modifiers. *)
Definition picker_started : Pick :=
  Pick_new WidgetApplication (Some (mkHandler [])).
Definition picker_highlighting : Pick :=
  snd (handleEvent WidgetApplication None widget_screen picker_started
                   (Some (WidgetObject square_widget))
                   (mouseAt MouseMove true true false 50 50)).
Definition picker_idle_again : Pick :=
  snd (handleEvent WidgetApplication None widget_screen picker_highlighting
                   (Some (WidgetObject square_widget))
                   (mouseAt MouseMove false false false 50 50)).

(** A scene-graph window at (100, 100) whose content holds a line 2/5 wide. *)
Definition thin_line : QQuickItem.t :=
  plainItem 2 "QQuickRectangle" 20 20 (2 # 5) 60 [].
Definition line_content : QQuickItem.t :=
  plainItem 1 "QQuickRootItem" 0 0 200 200 [thin_line].
Definition line_window : QWindow :=
  mkWindow 20 true (mkPoint 100 100) (mkSize 200 200)
           (QuickWindow (Some line_content)).
Definition line_screen : Screen :=
  mkScreen (fun _ => None) [Some line_window].

(** ** Views of the reporter used by the statements *)

(** Both numbers of a size, if both can be read. *)
Definition readSize (object : ReportedObject) (w h : string)
  : option (qreal * qreal) :=
  match readRealProperty object w, readRealProperty object h with
  | Some width, Some height => Some (width, height)
  | _, _ => None
  end.

(** The rectangle assembled from the numeric properties: [x] and [y], with
    [width] and [height] when both can be read and with [implicitWidth] and
    [implicitHeight] otherwise, provided both numbers of the size are
    positive. *)
Definition assembledGeometry (object : ReportedObject) : option QRectF :=
  match readRealProperty object "x", readRealProperty object "y" with
  | Some x, Some y =>
      let size :=
        match readSize object "width" "height" with
        | Some s => Some s
        | None => readSize object "implicitWidth" "implicitHeight"
        end in
      match size with
      | Some (width, height) =>
          if Qlt_bool 0 width && Qlt_bool 0 height
          then Some (mkRectF x y width height)
          else None
      | None => None
      end
  | _, _ => None
  end.

(** An item that has not been given a size: [width] and [height] are 0, the
    implicit size is 10x10. *)
Definition unsized_object : ReportedObject :=
  mkObject [ ("x", VDouble 3); ("y", VDouble 4);
             ("width", VDouble 0); ("height", VDouble 0);
             ("implicitWidth", VDouble 10); ("implicitHeight", VDouble 10) ]%string.

(** An object with a position and an implicit size only. *)
Definition implicit_object : ReportedObject :=
  mkObject [ ("x", VInt 3); ("y", VInt 4);
             ("implicitWidth", VDouble 10); ("implicitHeight", VDouble 10) ]%string.

(** The three flags that every test of the picker starts with. *)
Definition flagsOk (it : QQuickItem.t) : bool :=
  QQuickItem.visible it && QQuickItem.enabled it
  && Qlt_bool 0 (QQuickItem.opacity it).

(** The same picker after a press and after a release, both with
    Ctrl+Shift, following the first move. *)
Definition picker_pressed : bool * Pick :=
  handleEvent WidgetApplication None widget_screen picker_highlighting
              (Some (WidgetObject square_widget))
              (mouseAt MouseButtonPress true true false 50 50).
Definition picker_released : bool * Pick :=
  handleEvent WidgetApplication None widget_screen (snd picker_pressed)
              (Some (WidgetObject square_widget))
              (mouseAt MouseButtonRelease true true false 50 50).

(** Three children to sort: two at [z = 0], one at [z = 1]. *)
Definition sort_sample : list QQuickItem.t :=
  [ QQuickItem.Make 30 "A" [] true true 1%Q 1%Q 0 0 1 1 None [];
    QQuickItem.Make 20 "B" [] true true 1%Q 0%Q 0 0 1 1 None [];
    QQuickItem.Make 10 "C" [] true true 1%Q 0%Q 0 0 1 1 None [] ]%string.

(** ** Further views used by the statements *)

(** [d] is [r] or an item below [r], with the parents it has there. *)
Inductive descends (r : ItemRef) : ItemRef -> Prop :=
| descends_self : descends r r
| descends_child (c : QQuickItem.t) (d : ItemRef) :
    In c (QQuickItem.childItems (item r)) ->
    descends (mkRef c (item r :: ancestors r)) d ->
    descends r d.

(** The item and its parents, nearest first: what the walk of
    [promoteToButtonAncestor] visits. *)
Definition chain (r : ItemRef) : list QQuickItem.t := item r :: ancestors r.

(** A label inside a rectangle inside a button, under a content item. *)
Definition nested_label : QQuickItem.t :=
  plainItem 4 "QQuickText" 5 5 40 10 [].
Definition nested_background : QQuickItem.t :=
  plainItem 3 "QQuickRectangle" 0 0 100 40 [nested_label].
Definition nested_button : QQuickItem.t :=
  QQuickItem.Make 2 "QQuickButton"
                  ["QQuickAbstractButton"; "QQuickControl"; "QQuickItem"]%string
                  true true 1%Q 0%Q 10 10 100 40 None [nested_background].
Definition nested_scene : QQuickItem.t :=
  plainItem 1 "QQuickItem" 0 0 200 200 [nested_button].

(** The values of an [int]. *)
Definition isInt (n : Z) : Prop := - 2 ^ 31 <= n < 2 ^ 31.
Definition intPoint (p : QPoint) : Prop := isInt (ptx p) /\ isInt (pty p).
Definition intSize (s : QSize) : Prop := isInt (szw s) /\ isInt (szh s).

(** The rectangle of a window on the screen, as the loop of
    [computeHighlightTarget] builds it. *)
Definition windowRect (w : QWindow) : QRect :=
  Rect.make (Window.mapToGlobal w (mkPoint 0 0)) (winSize w).

(** The two tests a window has to pass in that loop. *)
Definition windowHit (w : QWindow) (globalPos : QPoint) : bool :=
  winVisible w && Rect.contains (windowRect w) globalPos.

(** A hidden window above a plain window, both 200x200 at (100, 100). *)
Definition hidden_window : QWindow :=
  mkWindow 21 false (mkPoint 100 100) (mkSize 200 200) NotQuickWindow.
Definition plain_window : QWindow :=
  mkWindow 22 true (mkPoint 100 100) (mkSize 200 200) NotQuickWindow.
Definition plain_screen : Screen :=
  mkScreen (fun _ => None) [None; Some hidden_window; Some plain_window].

(** One event as it is delivered: what the toolkit answers meanwhile, the
    receiver and the event. *)
Record Delivery := mkDelivery {
  dScreen : Screen;
  dReceiver : option QObject;
  dEvent : QEvent
}.

(** The picker after a sequence of events, each passed to [handleEvent]. *)
Definition runEvents (app : Application) (env : option string) (p : Pick)
  (ds : list Delivery) : Pick :=
  fold_left
    (fun p d => snd (handleEvent app env (dScreen d) p (dReceiver d) (dEvent d)))
    ds p.

(** A press with Shift and Ctrl held. *)
Definition isReportingPress (event : QEvent) : bool :=
  isPress (type event) && highlightModeOf event.

(** The calls the handler has received; none when there is no handler. *)
Definition reports (p : Pick) : list HandleCall :=
  match m_handler p with
  | Some h => handled h
  | None => []
  end.

(** The overlay that the constructor creates in an application. *)
Definition overlayFor (app : Application) : option OverlayKind :=
  match app with
  | WidgetApplication => Some WidgetHighlightOverlay
  | GuiApplication => Some WindowHighlightOverlay
  | NoApplication | CoreApplication => None
  end.

(** A session: move, press, release with Ctrl+Shift, a press without
    modifiers, a key event, a second press with Ctrl+Shift. *)
Definition sample_session : list Delivery :=
  map (mkDelivery widget_screen (Some (WidgetObject square_widget)))
      [ mouseAt MouseMove true true false 50 50;
        mouseAt MouseButtonPress true true false 50 50;
        mouseAt MouseButtonRelease true true false 50 50;
        mouseAt MouseButtonPress false false false 50 50;
        mouseAt OtherEventType true true false 0 0;
        mouseAt MouseButtonPress true true true 60 60 ].

(** Two objects with the same map for [geometry] and different numeric
    properties. *)
Definition mapped_object (x : Z) : ReportedObject :=
  mkObject [ ("geometry",
              VMap [ ("x", VInt 1); ("y", VInt 2);
                     ("width", VInt 30); ("height", VInt 40) ]);
             ("x", VInt x); ("y", VInt x);
             ("width", VInt x); ("height", VInt x) ]%string.

(** ** Trees that the toolkit can produce *)

(** [isVisible()] and [isEnabled()] answer effective flags: an item below
    an invisible item is invisible, an item below a disabled item is
    disabled.  [flagsInherited] holds of the trees whose [visible] and
    [enabled] fields obey this; [opacity()] is the item's own value and is
    not constrained. *)
Fixpoint flagsInherited (it : QQuickItem.t) : bool :=
  forallb
    (fun child =>
       implb (QQuickItem.visible child) (QQuickItem.visible it)
       && implb (QQuickItem.enabled child) (QQuickItem.enabled it)
       && flagsInherited child)
    (QQuickItem.childItems it).

(** A disabled item with a disabled child. *)
Definition disabled_child : QQuickItem.t :=
  QQuickItem.Make 2 "QQuickRectangle" ["QQuickItem"]%string true false 1%Q 0%Q
                  0 0 10 10 None [].
Definition disabled_root : QQuickItem.t :=
  QQuickItem.Make 1 "QQuickItem" []%string true false 1%Q 0%Q
                  0 0 10 10 None [disabled_child].

(** ** The local point of a target *)

(** [at_] is the global point [globalPos] in the coordinates of the target:
    [mapFromGlobal] for a widget and for a window; for a scene-graph item,
    the point of its window (which is the point of the scene) mapped into
    the item by [mapFromScene] and cut to [int]. *)
Definition inLocalSpace (screen : Screen) (globalPos : QPoint) (t : QObject)
  (at_ : QPoint) : Prop :=
  match t with
  | WidgetObject w => at_ = Widget.mapFromGlobal w globalPos
  | WindowObject w => at_ = Window.mapFromGlobal w globalPos
  | QuickItemObject r =>
      exists window content,
        In (Some window) (topLevelWindows screen) /\
        winQuick window = QuickWindow (Some content) /\
        let local :=
          mapFromScene r (toPointF (Window.mapFromGlobal window globalPos)) in
        at_ = mkPoint (truncToInt (pfx local)) (truncToInt (pfy local))
  | OtherObject _ => False
  end.

(** A screen without widgets and windows. *)
Definition empty_screen : Screen := mkScreen (fun _ => None) [].

(** A press with Ctrl+Shift handled by a picker without handler, and one
    delivered without receiver to a picker that finds no candidate. *)
Definition press_without_handler : bool * Pick :=
  handleEvent WidgetApplication None widget_screen
              (Pick_new WidgetApplication None)
              (Some (WidgetObject square_widget))
              (mouseAt MouseButtonPress true true false 50 50).
Definition press_without_receiver : bool * Pick :=
  handleEvent GuiApplication None empty_screen
              (Pick_new GuiApplication (Some (mkHandler []))) None
              (mouseAt MouseButtonPress true true false 5 5).

(** ** Geometry that the double arithmetic keeps exact *)







(** * Properties *)

(** ** Comparisons on rationals *)

Lemma Qlt_bool_iff (a b : Q) : Qlt_bool a b = true <-> (a < b)%Q.
Proof.
  unfold Qlt_bool. rewrite negb_true_iff. split.
  - intros H. apply Qnot_le_lt. intros Hle.
    apply Qle_bool_iff in Hle. congruence.
  - intros H. destruct (Qle_bool b a) eqn:E; [|reflexivity].
    apply Qle_bool_iff in E. exfalso. apply (Qlt_not_le _ _ H E).
Qed.



(** ** The recursion, as the source writes it *)

Section SortDecorated.
Context {A B : Type} (less : A -> A -> bool) (f : A -> B).

Lemma sort_insert_decorated (a : A) (l : list A) :
  sort_insert (fun l r => less (fst l) (fst r)) (a, f a)
              (map (fun a => (a, f a)) l)
  = map (fun a => (a, f a)) (sort_insert less a l).
Proof.
  induction l as [|b l IH]; simpl; [reflexivity|].
  destruct (less a b); simpl; [reflexivity|].
  now rewrite IH.
Qed.

Lemma std_sort_decorated (l : list A) :
  std_sort (fun l r => less (fst l) (fst r)) (map (fun a => (a, f a)) l)
  = map (fun a => (a, f a)) (std_sort less l).
Proof.
  unfold std_sort.
  induction l as [|a l IH]; simpl; [reflexivity|].
  now rewrite IH, sort_insert_decorated.
Qed.
End SortDecorated.

Lemma sort_insert_In {A : Type} (less : A -> A -> bool) (a x : A) (l : list A) :
  In x (sort_insert less a l) <-> x = a \/ In x l.
Proof.
  induction l as [|b l IH]; simpl.
  - intuition congruence.
  - destruct (less a b); simpl; [intuition congruence|].
    rewrite IH. intuition congruence.
Qed.

Lemma std_sort_In {A : Type} (less : A -> A -> bool) (x : A) (l : list A) :
  In x (std_sort less l) <-> In x l.
Proof.
  unfold std_sort.
  induction l as [|a l IH]; simpl; [tauto|].
  rewrite sort_insert_In, IH. intuition congruence.
Qed.

Lemma findQuickItemAt_rec_unfold env scenePos preferButtons parents it :
  findQuickItemAt_rec env scenePos preferButtons parents it =
  pickFrom env scenePos preferButtons (mkRef it parents)
    (collectHits
       (map (fun child =>
               (child,
                findQuickItemAt_rec env scenePos preferButtons (it :: parents) child))
            (QQuickItem.childItems it))).
Proof. destruct it; reflexivity. Qed.

(** The recursion of the embedding is the recursion of the source: sort the
    children, walk them from the topmost, recurse, then rank. *)
Lemma findQuickItemAt_rec_eq env scenePos preferButtons parents it :
  findQuickItemAt_rec env scenePos preferButtons parents it =
  pickFrom env scenePos preferButtons (mkRef it parents)
           (foundHits env scenePos preferButtons parents it).
Proof.
  rewrite findQuickItemAt_rec_unfold. f_equal.
  unfold collectHits, foundHits.
  rewrite (std_sort_decorated childLess
             (findQuickItemAt_rec env scenePos preferButtons (it :: parents))).
  rewrite <- map_rev.
  induction (rev (std_sort childLess (QQuickItem.childItems it))) as [|c l IH];
    simpl; [reflexivity|].
  now rewrite IH.
Qed.

(** The loop of the embedding descends as the source does: one [childAt],
    the three flags of the child, and on. *)
Lemma childAt_then_eq {A : Type} px py (k : QQuickItem.t -> A) children :
  childAt_then px py k children = option_map k (childAt_in px py children).
Proof.
  induction children as [|c rest IH]; simpl; [reflexivity|].
  rewrite IH. destruct (childAt_in px py rest); simpl; [reflexivity|].
  destruct (childAt_hit px py c); reflexivity.
Qed.

Lemma deepest_loop_eq scenePos parents current :
  deepest_loop scenePos parents current =
  let cur := mkRef current parents in
  let local := mapFromScene cur scenePos in
  match childAt cur (pfx local) (pfy local) with
  | None => cur
  | Some next =>
      if negb (QQuickItem.visible (item next))
         || negb (QQuickItem.enabled (item next))
         || Qle_bool (QQuickItem.opacity (item next)) 0
      then cur
      else deepest_loop scenePos (ancestors next) (item next)
  end.
Proof.
  destruct current; cbn [deepest_loop].
  rewrite childAt_then_eq. unfold childAt. cbn [item ancestors QQuickItem.childItems].
  match goal with |- context [childAt_in ?a ?b ?c] => destruct (childAt_in a b c) end;
    reflexivity.
Qed.

(** The walk of [promoteToButtonAncestor] goes through [parentItem()]. *)
Lemma firstButtonLike_step (r : ItemRef) :
  firstButtonLike (item r) (ancestors r) =
  if isButtonLike (item r) then Some r
  else match parentItem r with
       | Some p => firstButtonLike (item p) (ancestors p)
       | None => None
       end.
Proof.
  destruct r as [it parents]. unfold parentItem. cbn [item ancestors].
  destruct parents; reflexivity.
Qed.

(** Induction on an item and its children. *)
Lemma QQuickItem_ind_children (P : QQuickItem.t -> Prop) :
  (forall it, Forall P (QQuickItem.childItems it) -> P it) ->
  forall it, P it.
Proof.
  intros step. fix IH 1. intros [a c b v e o z x y w h s kids].
  apply step. cbn [QQuickItem.childItems].
  induction kids as [|k kids IHkids]; constructor; [apply IH|exact IHkids].
Qed.

(** ** The definitions on small inputs *)

Example qSqrt_of_square : (qSqrt 25 == 5)%Q /\ (qSqrt (1 # 4) == 1 # 2)%Q.
Proof. split; reflexivity. Qed.

Example qRound_halves :
  qRound (5 # 2) = 3 /\ qRound (- (5 # 2)) = -2 /\ qRound (2 # 5) = 0.
Proof. repeat split. Qed.

Example truncToInt_toward_zero :
  truncToInt (7 # 2) = 3 /\ truncToInt (- (7 # 2)) = -3.
Proof. split; reflexivity. Qed.

Example wrap32_wraps : wrap32 (2 ^ 31) = - 2 ^ 31 /\ wrap32 (-1) = -1.
Proof. split; reflexivity. Qed.

Example isButtonLike_samples :
  isButtonLike near_button = true /\
  isButtonLike (plainItem 1 "QQuickCheckBox" 0 0 1 1 []) = true /\
  isButtonLike (plainItem 1 "MyRoundBUTTON_QMLTYPE_3" 0 0 1 1 []) = true /\
  isButtonLike (plainItem 1 "QQuickText" 0 0 1 1 []) = false.
Proof. repeat split. Qed.

Example children_sorted_by_z_then_address :
  map QQuickItem.addr (std_sort childLess sort_sample) = [10; 20; 30].
Proof. reflexivity. Qed.

(** The scenario of a 100x100 element at the origin: a move with Ctrl+Shift
    shows the overlay on (0, 0, 100, 100); a press reports the element and
    the point (50, 50), once; a release is consumed without a report; a move
    without modifiers hides the overlay. *)
Example highlight_then_press_then_release :
  option_map overlayGeometry (m_highlightOverlay picker_highlighting)
  = Some (Rect.make (mkPoint 0 0) (mkSize 100 100)) /\
  overlayShown picker_highlighting = true /\
  fst picker_pressed = true /\
  option_map handled (m_handler (snd picker_pressed))
  = Some [mkCall (Some (WidgetObject square_widget)) (mkPoint 50 50)] /\
  fst picker_released = true /\
  m_handler (snd picker_released) = m_handler (snd picker_pressed) /\
  overlayShown picker_idle_again = false.
Proof. repeat split. Qed.

(** ** C1: the test of the root comes last *)

Lemma flat_map_all_nil {A B : Type} (f : A -> list B) (l : list A) :
  (forall x, In x l -> f x = []) -> flat_map f l = [].
Proof.
  induction l as [|a l IH]; simpl; intros H; [reflexivity|].
  rewrite (H a (or_introl eq_refl)), IH; [reflexivity|].
  intros x Hx. apply H. now right.
Qed.

Lemma ItemRef_eta (r : ItemRef) : mkRef (item r) (ancestors r) = r.
Proof. now destruct r. Qed.

Lemma foundHits_nil env scenePos preferButtons parents it :
  Forall (fun child =>
            findQuickItemAt_rec env scenePos preferButtons (it :: parents) child
            = None)
         (QQuickItem.childItems it) ->
  foundHits env scenePos preferButtons parents it = [].
Proof.
  intros Hall. unfold foundHits. apply flat_map_all_nil.
  intros c Hc. apply in_rev in Hc. apply std_sort_In in Hc.
  rewrite Forall_forall in Hall. now rewrite (Hall c Hc).
Qed.

Lemma flagsInherited_children (it child : QQuickItem.t) :
  flagsInherited it = true ->
  In child (QQuickItem.childItems it) ->
  flagsInherited child = true /\
  (QQuickItem.visible it = false -> QQuickItem.visible child = false) /\
  (QQuickItem.enabled it = false -> QQuickItem.enabled child = false).
Proof.
  intros Hit Hin. destruct it as [a c b v e o z x y w h s kids].
  cbn [flagsInherited QQuickItem.childItems QQuickItem.visible
       QQuickItem.enabled] in *.
  rewrite forallb_forall in Hit. specialize (Hit child Hin).
  apply andb_true_iff in Hit. destruct Hit as [Hit Hc].
  apply andb_true_iff in Hit. destruct Hit as [Hv He].
  repeat split; [exact Hc| |]; intros ->;
    [destruct (QQuickItem.visible child)|destruct (QQuickItem.enabled child)];
    cbn in *; congruence.
Qed.

(** Below an invisible or disabled item nothing is picked, in either mode:
    no item of the subtree passes the fallback, so no candidate is ever
    collected. *)
Lemma findQuickItemAt_rec_hidden env scenePos preferButtons it :
  flagsInherited it = true ->
  QQuickItem.visible it = false \/ QQuickItem.enabled it = false ->
  forall parents,
    findQuickItemAt_rec env scenePos preferButtons parents it = None.
Proof.
  induction it as [it IH] using QQuickItem_ind_children.
  intros Hinh Hoff parents.
  rewrite findQuickItemAt_rec_eq, foundHits_nil.
  - cbn [pickFrom]. unfold isPickableItem. cbn [item].
    destruct Hoff as [-> | ->]; [reflexivity|].
    now destruct (QQuickItem.visible it).
  - rewrite Forall_forall in *. intros child Hchild.
    destruct (flagsInherited_children it child Hinh Hchild) as (Hc & Hv & He).
    apply (IH child Hchild Hc). destruct Hoff as [H | H]; [left|right]; auto.
Qed.

(** C1, as the code has it, on trees that obey the inheritance of the
    flags.  A point outside the root's bounds does not stop the search: the
    child that lies under the point is returned.  Nor does an opacity of 0:
    the label inside the transparent button is returned. *)
Lemma C1_descendant_of_unpickable_root :
  (flagsInherited outside_root = true /\
   isPickableItem (Some (mkRef outside_root [])) (mkPointF 25 25) = None /\
   findQuickItemAt None (Some (mkRef outside_root [])) (mkPointF 25 25) false
   = Some (mkRef outside_child [outside_root])) /\
  (flagsInherited faded_button = true /\
   (QQuickItem.opacity faded_button == 0)%Q /\
   isPickableItem (Some (mkRef faded_button [faded_scene])) (mkPointF 20 20)
   = None /\
   findQuickItemAt None (Some (mkRef faded_button [faded_scene]))
                   (mkPointF 20 20) false
   = Some (mkRef faded_label [faded_button; faded_scene])).
Proof. repeat split; vm_compute; reflexivity. Qed.

(** C1, amended: the pick gives no candidate for a null root, and for a
    root that is not visible or not enabled (its descendants are then
    invisible or disabled too).  For a root of opacity <= 0 or that does
    not contain the point, it gives no candidate as soon as none of the
    root's children gives one: the root's own test is the fallback that
    comes after the search of the children, and a descendant that lies
    under the point is returned. *)
Theorem findQuickItemAt_unpickable_root env (root : option ItemRef) scenePos
  preferButtons :
  (forall r, root = Some r ->
     (flagsInherited (item r) = true /\
      (QQuickItem.visible (item r) = false \/
       QQuickItem.enabled (item r) = false))
     \/
     (isPickableItem (Some r) scenePos = None /\
      Forall (fun child =>
                findQuickItemAt env
                  (Some (mkRef child (item r :: ancestors r)))
                  scenePos preferButtons = None)
             (QQuickItem.childItems (item r)))) ->
  findQuickItemAt env root scenePos preferButtons = None.
Proof.
  intros Hroot. destruct root as [r|]; [|reflexivity].
  cbn [findQuickItemAt].
  destruct (Hroot r eq_refl) as [[Hinh Hoff] | [Hpick Hkids]].
  - now apply findQuickItemAt_rec_hidden.
  - cbn [findQuickItemAt] in Hkids.
    rewrite findQuickItemAt_rec_eq, foundHits_nil by exact Hkids.
    cbn [pickFrom]. rewrite ItemRef_eta. now rewrite Hpick.
Qed.

Lemma findQuickItemAt_unpickable_root_witness :
  findQuickItemAt None (Some (mkRef hidden_root [])) (mkPointF 5 5) true = None /\
  findQuickItemAt None (Some (mkRef disabled_root [])) (mkPointF 5 5) false = None /\
  findQuickItemAt None (Some (mkRef outside_root [])) (mkPointF 15 15) true = None.
Proof.
  split; [|split].
  - apply (findQuickItemAt_unpickable_root None (Some (mkRef hidden_root []))
             (mkPointF 5 5) true).
    intros r Hr. injection Hr as <-. left. split; [reflexivity|now left].
  - apply (findQuickItemAt_unpickable_root None (Some (mkRef disabled_root []))
             (mkPointF 5 5) false).
    intros r Hr. injection Hr as <-. left. split; [reflexivity|now right].
  - apply (findQuickItemAt_unpickable_root None (Some (mkRef outside_root []))
             (mkPointF 15 15) true).
    intros r Hr. injection Hr as <-. right.
    split; [reflexivity|repeat constructor].
Defined.

(** ** C2: the refinement block *)

(** C2, as the code has it: no item on the way up from the leaf is
    button-like, and yet the result is not the chosen candidate
    ([masked_frame]) but the leaf found by the descent ([masked_area], whose
    own [contains()] rejects the point). *)
Lemma C2_leaf_replaces_best :
  let scenePos := mkPointF 10 10 in
  let best := mkRef masked_frame [masked_root] in
  let leaf := mkRef masked_area [masked_frame; masked_root] in
  foundHits None scenePos true [] masked_root = [best] /\
  bestItem (rankCandidates None true scenePos [best]) = Some best /\
  deepestItemUnderPoint (Some best) scenePos = Some leaf /\
  firstButtonLike (item leaf) (ancestors leaf) = None /\
  ptr_eqb leaf best = false /\
  findQuickItemAt None (Some (mkRef masked_root [])) scenePos true = Some leaf.
Proof. repeat split; vm_compute; reflexivity. Qed.

Lemma rankCandidates_nil env preferButtons scenePos :
  bestItem (rankCandidates env preferButtons scenePos []) = None.
Proof. unfold rankCandidates; simpl. now destruct (preferLargestArea env). Qed.

(** C2, amended: with [preferButtons], once the ranking has chosen [best],
    the result is [best] when the descent from it gives nothing; otherwise
    the first button-like item on the way up from the deepest leaf (the leaf
    included, the walk going on above [best]); otherwise the leaf itself.
    Where that item is the object [best], [best] is returned. *)
Theorem findQuickItemAt_refinement env scenePos (root : ItemRef) best :
  bestItem
    (rankCandidates env true scenePos
       (foundHits env scenePos true (ancestors root) (item root)))
  = Some best ->
  exists result,
    findQuickItemAt env (Some root) scenePos true = Some result /\
    (result = promotionResult scenePos best \/
     (result = best /\ ptr_eqb (promotionResult scenePos best) best = true)).
Proof.
  intros Hbest. cbn [findQuickItemAt].
  rewrite findQuickItemAt_rec_eq. unfold pickFrom.
  destruct (foundHits env scenePos true (ancestors root) (item root))
    as [|c found] eqn:Hfound.
  - rewrite rankCandidates_nil in Hbest. discriminate.
  - unfold rankCandidates in Hbest. rewrite Hbest.
    eexists; split; [reflexivity|].
    unfold refineBest, promotionResult, promoteToButtonAncestor.
    destruct (deepestItemUnderPoint (Some best) scenePos) as [leaf|];
      [|now left].
    destruct (firstButtonLike (item leaf) (ancestors leaf)) as [button|].
    + destruct (ptr_eqb button best) eqn:E; simpl; [now right|now left].
    + destruct (ptr_eqb leaf best) eqn:E; simpl; [now right|now left].
Qed.

Lemma findQuickItemAt_refinement_witness :
  exists result,
    findQuickItemAt None (Some (mkRef masked_root [])) (mkPointF 10 10) true
    = Some result /\
    (result = promotionResult (mkPointF 10 10) (mkRef masked_frame [masked_root]) \/
     (result = mkRef masked_frame [masked_root] /\
      ptr_eqb (promotionResult (mkPointF 10 10) (mkRef masked_frame [masked_root]))
              (mkRef masked_frame [masked_root]) = true)).
Proof.
  apply (findQuickItemAt_refinement None (mkPointF 10 10)
           (mkRef masked_root []) (mkRef masked_frame [masked_root])).
  vm_compute; reflexivity.
Defined.

(** ** C3: a button-like best and a closer candidate *)

(** For a candidate that is not button-like, the ranking step with
    [preferButtons] is the step without it: the branch that is meant to
    keep a button-like best assigns [false] to a flag that is [false]. *)
Lemma rankStep_non_button_candidate largest scenePos best candidate :
  isButtonLike (item candidate) = false ->
  rankStep largest true scenePos best candidate
  = rankStep largest false scenePos best candidate.
Proof.
  intros Hc. unfold rankStep. cbv zeta. rewrite Hc.
  destruct (RectF.isEmpty _); [reflexivity|].
  cbn [andb negb].
  destruct (isNonNull (bestItem best));
    destruct (match bestItem best with
              | Some b => isButtonLike (item b)
              | None => false
              end);
    cbn [andb negb];
    repeat match goal with
           | |- context [if Qle_bool ?a ?b then _ else _] => destruct (Qle_bool a b)
           | |- context [if Qlt_bool ?a ?b then _ else _] => destruct (Qlt_bool a b)
           | |- context [if ?l then _ else _] => is_var l; destruct l
           end; reflexivity.
Qed.

(** C3, evaluated: the button is ranked first and becomes the best
    candidate at distance 10; the rectangle, not button-like and closer by 2
    only, replaces it, and is the result of the pick. *)
Theorem C3_nearer_candidate_replaces_button :
  let scenePos := mkPointF 50 50 in
  let button := mkRef near_button [button_scene] in
  let other := mkRef nearer_rectangle [button_scene] in
  let afterButton := rankStep false true scenePos (initialBest false) button in
  let afterOther := rankStep false true scenePos afterButton other in
  foundHits None scenePos true [] button_scene = [button; other] /\
  isButtonLike near_button = true /\
  isButtonLike nearer_rectangle = false /\
  bestItem afterButton = Some button /\
  (bestDist afterButton == 10)%Q /\
  bestItem afterOther = Some other /\
  (bestDist afterOther == 8)%Q /\
  (bestDist afterButton <= bestDist afterOther + kButtonBoostPx)%Q /\
  findQuickItemAt None (Some (mkRef button_scene [])) scenePos true = Some other.
Proof.
  repeat split; try (vm_compute; reflexivity).
  vm_compute. discriminate.
Qed.

(** ** C4: the tie-break on the area *)





Lemma findQuickItemAt_rec_leaf env scenePos preferButtons parents it :
  QQuickItem.childItems it = [] ->
  isPickableItem (Some (mkRef it parents)) scenePos <> None ->
  findQuickItemAt_rec env scenePos preferButtons parents it
  = Some (mkRef it parents).
Proof.
  intros Hkids Hpick. rewrite findQuickItemAt_rec_eq.
  unfold foundHits. rewrite Hkids.
  cbn [std_sort fold_right rev app flat_map pickFrom].
  destruct (isPickableItem (Some (mkRef it parents)) scenePos);
    [reflexivity|congruence].
Qed.

Lemma std_sort_pair {A : Type} (less : A -> A -> bool) (a b : A) :
  std_sort less [a; b] = if less a b then [a; b] else [b; a].
Proof. reflexivity. Qed.

Section AreaTieBreak.
Variables (env : option string) (scenePos : QPointF).
Variables (smaller larger : ItemRef).

Hypothesis smaller_not_empty : RectF.isEmpty (sceneRect smaller) = false.
Hypothesis larger_not_empty : RectF.isEmpty (sceneRect larger) = false.
Hypothesis same_center_x :
  (pfx (RectF.center (sceneRect smaller)) == pfx (RectF.center (sceneRect larger)))%Q.
Hypothesis same_center_y :
  (pfy (RectF.center (sceneRect smaller)) == pfy (RectF.center (sceneRect larger)))%Q.
Hypothesis areas_apart :
  (RectF.area (sceneRect smaller) + kAreaEps < RectF.area (sceneRect larger))%Q.
Hypothesis distance_finite :
  (QLineF_length (RectF.center (sceneRect smaller)) scenePos + kDistEps < DBL_MAX)%Q.





End AreaTieBreak.










(** ** What the picker can return *)

Lemma flags_of_pickable (r : ItemRef) scenePos :
  isPickableItem (Some r) scenePos <> None -> flagsOk (item r) = true.
Proof.
  unfold isPickableItem, flagsOk, Qlt_bool.
  destruct (QQuickItem.visible (item r)), (QQuickItem.enabled (item r)),
    (Qle_bool (QQuickItem.opacity (item r)) 0); cbn; congruence.
Qed.

Lemma rankStep_bestItem largest preferButtons scenePos best candidate :
  bestItem (rankStep largest preferButtons scenePos best candidate)
  = bestItem best \/
  bestItem (rankStep largest preferButtons scenePos best candidate)
  = Some candidate.
Proof.
  unfold rankStep. cbv zeta.
  destruct (RectF.isEmpty _); [now left|].
  match goal with |- context [if ?b then mkBest _ _ _ else best] => destruct b end;
    [now right|now left].
Qed.

Lemma rank_bestItem_In largest preferButtons scenePos found :
  forall best r,
    bestItem (fold_left (rankStep largest preferButtons scenePos) found best)
    = Some r ->
    bestItem best = Some r \/ In r found.
Proof.
  induction found as [|c found IH]; intros best r H; cbn in H; [now left|].
  destruct (IH _ _ H) as [Hb | Hin]; [|right; now right].
  destruct (rankStep_bestItem largest preferButtons scenePos best c) as [E | E];
    rewrite E in Hb; [now left|].
  right; left. congruence.
Qed.

Lemma foundHits_In env scenePos preferButtons parents it r :
  In r (foundHits env scenePos preferButtons parents it) ->
  exists child,
    In child (QQuickItem.childItems it) /\
    findQuickItemAt_rec env scenePos preferButtons (it :: parents) child = Some r.
Proof.
  unfold foundHits. rewrite in_flat_map. intros (child & Hin & Hr).
  exists child. split.
  - apply in_rev in Hin. now apply std_sort_In in Hin.
  - destruct (findQuickItemAt_rec env scenePos preferButtons (it :: parents) child)
      as [hit|]; [|contradiction].
    destruct Hr as [-> | []]. reflexivity.
Qed.

(** The descent stops on an item that has the three flags, if it started
    from one. *)
Lemma deepest_loop_flags scenePos current :
  forall parents,
    flagsOk current = true ->
    flagsOk (item (deepest_loop scenePos parents current)) = true.
Proof.
  induction current as [current IH] using QQuickItem_ind_children.
  intros parents Hflags. rewrite deepest_loop_eq. cbv zeta.
  unfold childAt. cbn [item ancestors].
  destruct (childAt_in _ _ (QQuickItem.childItems current)) as [next|] eqn:Hnext;
    [|exact Hflags].
  cbn [item ancestors].
  destruct (negb (QQuickItem.visible next) || negb (QQuickItem.enabled next)
            || Qle_bool (QQuickItem.opacity next) 0) eqn:Hbad; [exact Hflags|].
  assert (Hin : In next (QQuickItem.childItems current)).
  { clear -Hnext. induction (QQuickItem.childItems current) as [|c rest IHr];
      cbn in Hnext; [discriminate|].
    destruct (childAt_in _ _ rest) as [later|].
    - injection Hnext as <-. right. now apply IHr.
    - destruct (childAt_hit _ _ c); [|discriminate].
      injection Hnext as <-. now left. }
  rewrite Forall_forall in IH. apply (IH next Hin).
  unfold flagsOk, Qlt_bool.
  destruct (QQuickItem.visible next), (QQuickItem.enabled next),
    (Qle_bool (QQuickItem.opacity next) 0); cbn in *; congruence.
Qed.

Lemma deepestItemUnderPoint_flags root scenePos leaf :
  deepestItemUnderPoint root scenePos = Some leaf ->
  flagsOk (item leaf) = true.
Proof.
  destruct root as [r|]; cbn [deepestItemUnderPoint]; [|discriminate].
  cbv zeta.
  destruct (negb (QQuickItem.visible (item r)) || negb (QQuickItem.enabled (item r))
            || Qle_bool (QQuickItem.opacity (item r)) 0
            || negb (QQuickItem.contains (item r) (mapFromScene r scenePos)))
    eqn:Hbad; [discriminate|].
  intros [= <-]. apply deepest_loop_flags.
  unfold flagsOk, Qlt_bool.
  destruct (QQuickItem.visible (item r)), (QQuickItem.enabled (item r)),
    (Qle_bool (QQuickItem.opacity (item r)) 0); cbn in *; congruence.
Qed.

Lemma firstButtonLike_button it parents button :
  firstButtonLike it parents = Some button ->
  isButtonLike (item button) = true.
Proof.
  revert it. induction parents as [|p ps IH]; intros it; cbn [firstButtonLike];
    destruct (isButtonLike it) eqn:E; try discriminate;
    try (intros [= <-]; exact E).
  apply IH.
Qed.

(** Every item the picker returns is visible, enabled and of positive
    opacity, or else it is a button-like item that [preferButtons] has
    promoted. *)
Lemma findQuickItemAt_rec_flags env scenePos preferButtons it :
  forall parents r,
    findQuickItemAt_rec env scenePos preferButtons parents it = Some r ->
    flagsOk (item r) = true \/
    (preferButtons = true /\ isButtonLike (item r) = true).
Proof.
  induction it as [it IH] using QQuickItem_ind_children.
  intros parents r. rewrite findQuickItemAt_rec_eq. unfold pickFrom.
  assert (Hfallback :
            match isPickableItem (Some (mkRef it parents)) scenePos with
            | Some _ => Some (mkRef it parents)
            | None => None
            end = Some r ->
            flagsOk (item r) = true \/
            (preferButtons = true /\ isButtonLike (item r) = true)).
  { destruct (isPickableItem (Some (mkRef it parents)) scenePos) eqn:E;
      [|discriminate].
    intros [= <-]. left. apply (flags_of_pickable _ scenePos). congruence. }
  destruct (foundHits env scenePos preferButtons parents it) as [|c found] eqn:Hf;
    [exact Hfallback|].
  destruct (bestItem _) as [b|] eqn:Hb; [|exact Hfallback].
  intros [= <-].
  assert (Hgood : flagsOk (item b) = true \/
                  (preferButtons = true /\ isButtonLike (item b) = true)).
  { apply rank_bestItem_In in Hb. destruct Hb as [Hb | Hin];
      [destruct (preferLargestArea env); discriminate|].
    rewrite <- Hf in Hin. apply foundHits_In in Hin.
    destruct Hin as (child & Hchild & Hr).
    rewrite Forall_forall in IH. exact (IH child Hchild _ _ Hr). }
  unfold refineBest. destruct preferButtons; [|exact Hgood].
  destruct (deepestItemUnderPoint (Some b) scenePos) as [leaf|] eqn:Hleaf;
    [|exact Hgood].
  destruct (negb (ptr_eqb (promoteToButtonAncestor leaf) b)); [|exact Hgood].
  unfold promoteToButtonAncestor.
  destruct (firstButtonLike (item leaf) (ancestors leaf)) as [button|] eqn:Hbtn.
  - right. split; [reflexivity|]. now apply firstButtonLike_button in Hbtn.
  - left. now apply deepestItemUnderPoint_flags in Hleaf.
Qed.

(** Without [preferButtons] the picker returns only items that are visible,
    enabled and of positive opacity. *)
Lemma findQuickItemAt_plain_flags env root scenePos r :
  findQuickItemAt env root scenePos false = Some r ->
  flagsOk (item r) = true.
Proof.
  destruct root as [root|]; cbn [findQuickItemAt]; [|discriminate].
  intros H. apply findQuickItemAt_rec_flags in H.
  destruct H as [H | [H _]]; [exact H|discriminate].
Qed.

(** ** C5: promotion to an item that is not pickable *)

(** C5, evaluated: the label inside a button of opacity 0 is hit, and the
    promotion returns the button, which [isPickableItem] rejects. *)
Theorem C5_promotion_returns_transparent_button :
  let scenePos := mkPointF 20 20 in
  let button := mkRef faded_button [faded_scene] in
  (QQuickItem.opacity faded_button == 0)%Q /\
  isPickableItem (Some button) scenePos = None /\
  findQuickItemAt None (Some (mkRef faded_scene [])) scenePos false
  = Some (mkRef faded_label [faded_button; faded_scene]) /\
  findQuickItemAt None (Some (mkRef faded_scene [])) scenePos true = Some button.
Proof. repeat split; vm_compute; reflexivity. Qed.

(** ** 32-bit integers *)

Lemma wrap32_range (n : Z) : - 2 ^ 31 <= wrap32 n < 2 ^ 31.
Proof.
  unfold wrap32.
  pose proof (Z.mod_pos_bound (n + 2 ^ 31) (2 ^ 32) eq_refl). lia.
Qed.

Lemma wrap32_small (n : Z) : - 2 ^ 31 <= n < 2 ^ 31 -> wrap32 n = n.
Proof.
  intros H. unfold wrap32. rewrite Z.mod_small; lia.
Qed.

Lemma wrap32_add_l (a b : Z) : wrap32 (wrap32 a + b) = wrap32 (a + b).
Proof.
  unfold wrap32.
  replace ((a + 2 ^ 31) mod 2 ^ 32 - 2 ^ 31 + b + 2 ^ 31)
    with ((a + 2 ^ 31) mod 2 ^ 32 + b) by lia.
  rewrite Zplus_mod_idemp_l. f_equal. f_equal. lia.
Qed.

Lemma Rect_make_width (topLeft : QPoint) (w h : Z) :
  - 2 ^ 31 <= w < 2 ^ 31 ->
  Rect.width (Rect.make topLeft (mkSize w h)) = w.
Proof.
  intros Hw. unfold Rect.width, Rect.make. cbn [x1 x2 szw].
  replace (wrap32 (ptx topLeft + w - 1) - ptx topLeft + 1)
    with (wrap32 (ptx topLeft + w - 1) + (1 - ptx topLeft)) by lia.
  rewrite wrap32_add_l. rewrite <- (wrap32_small w Hw) at 2. f_equal. lia.
Qed.

Lemma Rect_make_height (topLeft : QPoint) (w h : Z) :
  - 2 ^ 31 <= h < 2 ^ 31 ->
  Rect.height (Rect.make topLeft (mkSize w h)) = h.
Proof.
  intros Hh. unfold Rect.height, Rect.make. cbn [y1 y2 szh].
  replace (wrap32 (pty topLeft + h - 1) - pty topLeft + 1)
    with (wrap32 (pty topLeft + h - 1) + (1 - pty topLeft)) by lia.
  rewrite wrap32_add_l. rewrite <- (wrap32_small h Hh) at 2. f_equal. lia.
Qed.

Lemma qMax_qRound_range (d : Q) : 1 <= qMax 1 (qRound d) < 2 ^ 31.
Proof.
  unfold qMax, qRound.
  pose proof (wrap32_range (Qfloor (d + (1 # 2)))) as H.
  destruct (Z.ltb_spec 1 (wrap32 (Qfloor (d + (1 # 2))))); lia.
Qed.

(** ** The event router *)

Lemma callHandler_fields p t at_ :
  m_highlightOverlay (callHandler p t at_) = m_highlightOverlay p /\
  m_hasWidgetStack (callHandler p t at_) = m_hasWidgetStack p /\
  m_highlightTarget (callHandler p t at_) = m_highlightTarget p /\
  m_highlightPos (callHandler p t at_) = m_highlightPos p.
Proof. unfold callHandler. destruct (m_handler p); repeat split. Qed.

Lemma reportPress_fields p highlightMode candidate receiver event :
  m_highlightOverlay (reportPress p highlightMode candidate receiver event)
  = m_highlightOverlay p /\
  m_hasWidgetStack (reportPress p highlightMode candidate receiver event)
  = m_hasWidgetStack p /\
  m_highlightTarget (reportPress p highlightMode candidate receiver event)
  = m_highlightTarget p /\
  m_highlightPos (reportPress p highlightMode candidate receiver event)
  = m_highlightPos p.
Proof.
  unfold reportPress. cbv zeta.
  match goal with
  | |- context [let '(t, at_) := ?e in _] => destruct e as [t at_]
  end.
  apply callHandler_fields.
Qed.

Lemma updateHighlight_backend p highlightMode candidate :
  m_handler (updateHighlight p highlightMode candidate) = m_handler p /\
  m_hasWidgetStack (updateHighlight p highlightMode candidate)
  = m_hasWidgetStack p /\
  isNonNull (m_highlightOverlay (updateHighlight p highlightMode candidate))
  = isNonNull (m_highlightOverlay p).
Proof.
  unfold updateHighlight, showHighlight, hideHighlight.
  destruct highlightMode, (isNonNull candidate),
    (m_highlightOverlay p) eqn:E; cbn; rewrite ?E; auto.
Qed.

(** The picker after a mouse event. *)
Lemma handleEvent_mouse app env screen p receiver event :
  m_handler p <> None ->
  isMouseEvent (type event) = true ->
  snd (handleEvent app env screen p receiver event) =
  let candidate := candidateOf app env screen p event in
  let p1 := updateHighlight p (highlightModeOf event) candidate in
  if isPress (type event) && highlightModeOf event
  then reportPress p1 (highlightModeOf event) candidate receiver event
  else p1.
Proof.
  intros Hh Hm. unfold handleEvent, candidateOf, highlightModeOf.
  destruct (m_handler p); [|congruence]. cbn [isNonNull negb].
  rewrite Hm. cbv zeta.
  destruct (isPress (type event) && _); [reflexivity|].
  destruct (isRelease (type event) && _); reflexivity.
Qed.

Lemma handleEvent_backend app env screen p receiver event :
  m_hasWidgetStack (snd (handleEvent app env screen p receiver event))
  = m_hasWidgetStack p /\
  isNonNull (m_highlightOverlay (snd (handleEvent app env screen p receiver event)))
  = isNonNull (m_highlightOverlay p).
Proof.
  destruct (m_handler p) as [h|] eqn:Hh;
    [|unfold handleEvent; rewrite Hh; now split].
  destruct (isMouseEvent (type event)) eqn:Hm;
    [|unfold handleEvent; rewrite Hh, Hm; now split].
  rewrite handleEvent_mouse by congruence. cbv zeta.
  set (c := candidateOf app env screen p event).
  destruct (updateHighlight_backend p (highlightModeOf event) c) as (_ & H1 & H2).
  destruct (isPress (type event) && highlightModeOf event); [|now split].
  destruct (reportPress_fields (updateHighlight p (highlightModeOf event) c)
              (highlightModeOf event) c receiver event) as (E1 & E2 & _).
  rewrite E1, E2. now split.
Qed.

Lemma reachable_backend app env p :
  reachable app env p ->
  m_hasWidgetStack p = isQApplication app /\
  isNonNull (m_highlightOverlay p) = isQGuiApplication app.
Proof.
  induction 1 as [handler | p screen receiver event Hp [IH1 IH2]].
  - destruct app; split; reflexivity.
  - destruct (handleEvent_backend app env screen p receiver event) as [H1 H2].
    rewrite H1, H2. now split.
Qed.

(** Without a widget stack and without a GUI application there is nothing
    to resolve. *)
Lemma computeHighlightTarget_no_gui app env screen p globalPos buttonsOnly :
  m_hasWidgetStack p = false ->
  isQGuiApplication app = false ->
  computeHighlightTarget app env screen p globalPos buttonsOnly = None.
Proof.
  intros Hs Hg. unfold computeHighlightTarget. now rewrite Hs, Hg.
Qed.

Lemma updateHighlight_overlay p highlightMode candidate :
  isNonNull (m_highlightOverlay p) = true ->
  overlayShown (updateHighlight p highlightMode candidate)
  = highlightMode && isNonNull candidate.
Proof.
  unfold updateHighlight, overlayShown, showHighlight, hideHighlight,
    Overlay.showRect, Overlay.hide.
  destruct (m_highlightOverlay p) as [[k g v]|] eqn:E; [intros _|discriminate].
  destruct highlightMode, (isNonNull candidate), v; cbn; rewrite ?E; reflexivity.
Qed.

(** ** C6: when the overlay is on screen *)

(** C6: for a picker of the application that delivers the events, after
    every mouse move, press or release that the picker processes (it has a
    handler), the overlay is on screen exactly when Shift and Ctrl were both
    held and a candidate was found under the cursor. *)
Theorem overlay_shown_iff app env p screen receiver event :
  reachable app env p ->
  m_handler p <> None ->
  isMouseEvent (type event) = true ->
  overlayShown (snd (handleEvent app env screen p receiver event))
  = highlightModeOf event && isNonNull (candidateOf app env screen p event).
Proof.
  intros Hreach Hh Hm.
  destruct (reachable_backend _ _ _ Hreach) as [Hstack Hover].
  rewrite handleEvent_mouse by assumption. cbv zeta.
  set (c := candidateOf app env screen p event).
  assert (Hshown : overlayShown (updateHighlight p (highlightModeOf event) c)
                   = highlightModeOf event && isNonNull c).
  { destruct (isQGuiApplication app) eqn:Hg.
    - now apply updateHighlight_overlay.
    - assert (Hc : c = None).
      { apply computeHighlightTarget_no_gui; [|assumption].
        rewrite Hstack. now destruct app. }
      rewrite Hc, andb_false_r.
      destruct (updateHighlight_backend p (highlightModeOf event) None)
        as (_ & _ & E).
      rewrite Hover in E. unfold overlayShown.
      now destruct (m_highlightOverlay (updateHighlight p (highlightModeOf event) None)). }
  destruct (isPress (type event) && highlightModeOf event); [|exact Hshown].
  unfold overlayShown in *.
  destruct (reportPress_fields (updateHighlight p (highlightModeOf event) c)
              (highlightModeOf event) c receiver event) as (E & _).
  now rewrite E.
Qed.

Lemma overlay_shown_iff_witness :
  overlayShown picker_highlighting = true /\ overlayShown picker_idle_again = false.
Proof.
  split.
  - apply (overlay_shown_iff WidgetApplication None picker_started widget_screen
             (Some (WidgetObject square_widget))
             (mouseAt MouseMove true true false 50 50)).
    + apply reachable_new.
    + discriminate.
    + reflexivity.
  - apply (overlay_shown_iff WidgetApplication None picker_highlighting
             widget_screen (Some (WidgetObject square_widget))
             (mouseAt MouseMove false false false 50 50)).
    + apply reachable_event, reachable_new.
    + discriminate.
    + reflexivity.
Defined.

(** ** C7: the report of a press *)

Lemma handleEvent_returns app env screen p receiver event :
  m_handler p <> None ->
  isPress (type event) = true ->
  highlightModeOf event = true ->
  fst (handleEvent app env screen p receiver event) = true.
Proof.
  intros Hh Hp Hm. unfold handleEvent, highlightModeOf in *.
  destruct (m_handler p); [|congruence]. cbn [isNonNull negb].
  destruct (type event); try discriminate. cbn [isMouseEvent isPress].
  cbv zeta. now rewrite Hm.
Qed.

Lemma updateHighlight_target p candidate :
  m_handler (updateHighlight p true candidate) = m_handler p /\
  m_highlightTarget (updateHighlight p true candidate)
  = option_map target candidate /\
  (forall c, candidate = Some c ->
             m_highlightPos (updateHighlight p true candidate) = localPos c).
Proof.
  unfold updateHighlight, showHighlight, hideHighlight.
  destruct candidate as [c|], (m_highlightOverlay p) eqn:E; cbn;
    rewrite ?E; repeat split; try reflexivity; intros c' [= <-]; reflexivity.
Qed.

Lemma wrap32_sub_r (a b : Z) : wrap32 (a - wrap32 b) = wrap32 (a - b).
Proof.
  unfold wrap32.
  change (2 ^ 32) with 4294967296. change (2 ^ 31) with 2147483648.
  assert (E : forall m, a - (m - 2147483648) + 2147483648 = a + 4294967296 - m)
    by (intros m; lia).
  rewrite E, Zminus_mod_idemp_r. f_equal. f_equal. lia.
Qed.

Lemma window_local_point (w : QWindow) (globalPos : QPoint) :
  point_sub globalPos (Rect.topLeft (windowRect w))
  = Window.mapFromGlobal w globalPos.
Proof.
  unfold windowRect, Rect.topLeft, Rect.make, Window.mapToGlobal,
    Window.mapFromGlobal, point_add, point_sub.
  cbn [x1 y1 ptx pty]. now rewrite !Z.add_0_l, !wrap32_sub_r.
Qed.

Lemma windowCandidate_local env screen windows globalPos buttonsOnly c :
  (forall w, In w windows -> In w (topLevelWindows screen)) ->
  windowCandidate env windows globalPos buttonsOnly = Some c ->
  inLocalSpace screen globalPos (target c) (localPos c).
Proof.
  induction windows as [|[window|] rest IH]; intros Hsub; cbn [windowCandidate];
    [discriminate| |apply IH; intros w Hw; apply Hsub; now right].
  fold (windowRect window).
  assert (Hrest : windowCandidate env rest globalPos buttonsOnly = Some c ->
                  inLocalSpace screen globalPos (target c) (localPos c))
    by (apply IH; intros w Hw; apply Hsub; now right).
  destruct (negb (winVisible window)); [exact Hrest|].
  cbv zeta. destruct (negb (Rect.contains _ globalPos)); [exact Hrest|].
  assert (Hwin : Some (mkCandidate (windowRect window) (WindowObject window)
                         (point_sub globalPos (Rect.topLeft (windowRect window))))
                 = Some c ->
                 inLocalSpace screen globalPos (target c) (localPos c))
    by (intros [= <-]; cbn [target localPos inLocalSpace];
        apply window_local_point).
  destruct (winQuick window) as [|[content|]] eqn:Hq; try exact Hwin.
  destruct (quickCandidate env window content globalPos buttonsOnly) as [q|] eqn:Hqc;
    [|exact Hwin].
  intros [= <-]. unfold quickCandidate in Hqc. cbv zeta in Hqc.
  destruct (findQuickItemAt env _ _ buttonsOnly) as [quickItem|]; [|discriminate].
  destruct (negb (ptr_eqb quickItem _)); [|discriminate].
  injection Hqc as <-. cbn [target localPos inLocalSpace].
  exists window, content. repeat split; [apply Hsub; now left|exact Hq].
Qed.

(** The local point of a candidate is the global point in the coordinates
    of the candidate's target. *)
Lemma computeHighlightTarget_local app env screen p globalPos buttonsOnly c :
  computeHighlightTarget app env screen p globalPos buttonsOnly = Some c ->
  inLocalSpace screen globalPos (target c) (localPos c).
Proof.
  unfold computeHighlightTarget.
  destruct (if m_hasWidgetStack p then widgetAt screen globalPos else None).
  - intros [= <-]. reflexivity.
  - destruct (negb (isQGuiApplication app)); [discriminate|].
    apply windowCandidate_local. auto.
Qed.

(** C7, as the code has it: a picker without handler returns [false] for a
    press with Ctrl+Shift and nothing is reported; and when the press has
    no receiver and no candidate is found, the handler is called with a
    null target. *)
Lemma C7_no_handler_or_no_receiver :
  press_without_handler = (false, Pick_new WidgetApplication None) /\
  reports (snd press_without_handler) = [] /\
  fst press_without_receiver = true /\
  reports (snd press_without_receiver) = [mkCall None (mkPoint 5 5)].
Proof. repeat split. Qed.

(** C7, amended: on a press with Ctrl+Shift, a picker that has a handler
    calls it exactly once and returns [true].  With a receiver that is not
    null, the target is not null: it is the target remembered by the
    highlight, which at that point is the candidate just resolved, and the
    receiver of the event when no candidate was found.  The point is in the
    coordinates of the target: for a candidate, the global position of the
    event mapped by [mapFromGlobal] into the widget or the window, or mapped
    from the scene into the scene-graph item and cut to [int]; for the
    receiver, the position of the event. *)
Theorem press_reports_once app env screen p h receiver event :
  m_handler p = Some h ->
  type event = MouseButtonPress ->
  highlightModeOf event = true ->
  let candidate := candidateOf app env screen p event in
  let after := handleEvent app env screen p (Some receiver) event in
  fst after = true /\
  exists t at_,
    m_handler (snd after) = Some (mkHandler (handled h ++ [mkCall (Some t) at_])) /\
    (t, at_) = match candidate with
               | Some c => (target c, localPos c)
               | None => (receiver, pos event)
               end /\
    match m_highlightTarget (snd after) with
    | Some remembered => remembered = t /\ m_highlightPos (snd after) = at_
    | None => candidate = None
    end /\
    match candidate with
    | Some _ => inLocalSpace screen (globalPos event) t at_
    | None => at_ = pos event
    end.
Proof.
  intros Hh Ht Hm. cbv zeta. split.
  - apply handleEvent_returns; [congruence|now rewrite Ht|assumption].
  - rewrite handleEvent_mouse by (try congruence; now rewrite Ht).
    cbv zeta. rewrite Ht, Hm. cbn [isPress andb].
    pose proof (computeHighlightTarget_local app env screen p (globalPos event)
                  (AltModifier (modifiers event))) as Hlocal.
    fold (candidateOf app env screen p event) in Hlocal.
    set (c := candidateOf app env screen p event) in *.
    destruct (updateHighlight_target p c) as (E1 & E2 & E3).
    destruct (reportPress_fields (updateHighlight p true c) true c
                (Some receiver) event) as (_ & _ & F3 & F4).
    rewrite F3, F4, E2.
    unfold reportPress. cbv zeta. rewrite E2. unfold callHandler.
    rewrite E1, Hh.
    clearbody c. destruct c as [c|].
    + rewrite (E3 c eq_refl). cbn.
      exists (target c), (localPos c). repeat split. now apply Hlocal.
    + cbn. exists receiver, (pos event). repeat split.
Qed.

Lemma press_reports_once_witness :
  (fst (handleEvent WidgetApplication None widget_screen picker_highlighting
          (Some (OtherObject 7)) (mouseAt MouseButtonPress true true false 50 50))
   = true /\
   exists t at_,
     m_handler
       (snd (handleEvent WidgetApplication None widget_screen picker_highlighting
               (Some (OtherObject 7))
               (mouseAt MouseButtonPress true true false 50 50)))
     = Some (mkHandler ([] ++ [mkCall (Some t) at_])) /\
     (t, at_) = (WidgetObject square_widget, mkPoint 50 50) /\
     (WidgetObject square_widget = t /\ mkPoint 50 50 = at_) /\
     inLocalSpace widget_screen (mkPoint 50 50) t at_)
  /\
  (fst (handleEvent GuiApplication None line_screen
          (Pick_new GuiApplication (Some (mkHandler [])))
          (Some (OtherObject 7)) (mouseAt MouseButtonPress true true false 120 150))
   = true /\
   exists t at_,
     m_handler
       (snd (handleEvent GuiApplication None line_screen
               (Pick_new GuiApplication (Some (mkHandler [])))
               (Some (OtherObject 7))
               (mouseAt MouseButtonPress true true false 120 150)))
     = Some (mkHandler ([] ++ [mkCall (Some t) at_])) /\
     (t, at_)
     = (QuickItemObject (mkRef thin_line [line_content]), mkPoint 0 30) /\
     (QuickItemObject (mkRef thin_line [line_content]) = t /\
      mkPoint 0 30 = at_) /\
     inLocalSpace line_screen (mkPoint 120 150) t at_).
Proof.
  split.
  - apply (press_reports_once WidgetApplication None widget_screen
             picker_highlighting (mkHandler []) (OtherObject 7)
             (mouseAt MouseButtonPress true true false 50 50));
      reflexivity.
  - apply (press_reports_once GuiApplication None line_screen
             (Pick_new GuiApplication (Some (mkHandler []))) (mkHandler [])
             (OtherObject 7)
             (mouseAt MouseButtonPress true true false 120 150));
      reflexivity.
Defined.

(** ** C8: what is forgotten when the highlight goes *)

(** C8, as the code has it: after a move with Ctrl+Shift over the widget
    and a move without modifiers, the remembered target is null, but the
    remembered point is still the one of the first move, not the (0, 0) the
    picker starts with. *)
Lemma C8_point_not_reset :
  m_highlightTarget picker_highlighting = Some (WidgetObject square_widget) /\
  m_highlightPos picker_highlighting = mkPoint 50 50 /\
  highlightModeOf (mouseAt MouseMove false false false 50 50) = false /\
  m_highlightTarget picker_idle_again = None /\
  m_highlightPos picker_idle_again = mkPoint 50 50 /\
  m_highlightPos picker_started = mkPoint 0 0.
Proof. repeat split; vm_compute; reflexivity. Qed.

(** C8, amended: after a processed mouse event for which highlight mode is
    not active or no candidate is found, the remembered target is null; the
    remembered point is left as it was. *)
Theorem highlight_target_forgotten app env screen p receiver event :
  m_handler p <> None ->
  isMouseEvent (type event) = true ->
  highlightModeOf event = false \/ candidateOf app env screen p event = None ->
  m_highlightTarget (snd (handleEvent app env screen p receiver event)) = None /\
  m_highlightPos (snd (handleEvent app env screen p receiver event))
  = m_highlightPos p.
Proof.
  intros Hh Hm Hoff. rewrite handleEvent_mouse by assumption. cbv zeta.
  set (c := candidateOf app env screen p event) in *.
  assert (Hupd : m_highlightTarget (updateHighlight p (highlightModeOf event) c) = None
                 /\ m_highlightPos (updateHighlight p (highlightModeOf event) c)
                    = m_highlightPos p).
  { unfold updateHighlight, hideHighlight.
    destruct Hoff as [-> | ->].
    - cbn. destruct (m_highlightOverlay p); split; reflexivity.
    - rewrite andb_false_r.
      destruct (highlightModeOf event), (m_highlightOverlay p); split; reflexivity. }
  destruct (isPress (type event) && highlightModeOf event); [|exact Hupd].
  destruct (reportPress_fields (updateHighlight p (highlightModeOf event) c)
              (highlightModeOf event) c receiver event) as (_ & _ & F3 & F4).
  now rewrite F3, F4.
Qed.

Lemma highlight_target_forgotten_witness :
  m_highlightTarget picker_idle_again = None /\
  m_highlightPos picker_idle_again = m_highlightPos picker_highlighting.
Proof.
  apply (highlight_target_forgotten WidgetApplication None widget_screen
           picker_highlighting (Some (WidgetObject square_widget))
           (mouseAt MouseMove false false false 50 50)).
  - discriminate.
  - reflexivity.
  - left; reflexivity.
Defined.

(** ** C9: the geometry assembled from the numeric properties *)

(** C9, as the code has it: [width] and [height] are there and are 0, the
    implicit size is 10x10 and could be read, and no geometry is written:
    the implicit size is read only when [width] or [height] cannot be. *)
Lemma C9_zero_size_no_fallback :
  property unsized_object "geometry" = VInvalid /\
  readRealProperty unsized_object "x" = Some 3%Q /\
  readRealProperty unsized_object "y" = Some 4%Q /\
  readRealProperty unsized_object "width" = Some 0%Q /\
  readRealProperty unsized_object "height" = Some 0%Q /\
  readRealProperty unsized_object "implicitWidth" = Some 10%Q /\
  readRealProperty unsized_object "implicitHeight" = Some 10%Q /\
  reportedGeometry true unsized_object = None.
Proof. repeat split. Qed.

Lemma isNull_positive (x y w h : Q) :
  Qlt_bool 0 w = true -> RectF.isNull (mkRectF x y w h) = false.
Proof.
  intros Hw. apply Qlt_bool_iff in Hw. unfold RectF.isNull. cbn [rfw rfh].
  destruct (Qeq_bool w 0) eqn:E; [|reflexivity].
  apply Qeq_bool_iff in E. rewrite E in Hw. now apply Qlt_irrefl in Hw.
Qed.

(** C9, amended: for an object whose [geometry] property is missing or
    converts neither to a rectangle nor to a map, the rectangle written is
    made of [x], [y], [width], [height]; [implicitWidth] and
    [implicitHeight] stand in when [width] or [height] cannot be read as a
    number (not when they are 0); and the rectangle is written exactly when
    [x] and [y] can be read and the size so chosen is positive in both
    directions. *)
Theorem reportedGeometry_assembled (object : ReportedObject) :
  Variant.isValid (property object "geometry") = false \/
  (Variant.canConvertRect (property object "geometry") = false /\
   Variant.canConvertMap (property object "geometry") = false) ->
  reportedGeometry true object = assembledGeometry object.
Proof.
  intros Hgeom.
  assert (Hrect : Variant.isValid (property object "geometry")
                  && Variant.canConvertRect (property object "geometry") = false)
    by (destruct Hgeom as [-> | [-> _]]; [reflexivity|apply andb_false_r]).
  assert (Hmap : Variant.isValid (property object "geometry")
                 && Variant.canConvertMap (property object "geometry") = false)
    by (destruct Hgeom as [-> | [_ ->]]; [reflexivity|apply andb_false_r]).
  unfold reportedGeometry, assembledGeometry, readSize. cbv zeta.
  rewrite Hrect, Hmap.
  destruct (readRealProperty object "x") as [x|];
    destruct (readRealProperty object "y") as [y|];
    destruct (readRealProperty object "width") as [w|];
    destruct (readRealProperty object "height") as [h|];
    destruct (readRealProperty object "implicitWidth") as [iw|];
    destruct (readRealProperty object "implicitHeight") as [ih|];
    cbn [isNonNull readInto andb negb RectF.null];
    try reflexivity;
    match goal with
    | |- context [Qlt_bool 0 ?a && Qlt_bool 0 ?b] =>
        destruct (Qlt_bool 0 a) eqn:Ha; destruct (Qlt_bool 0 b) eqn:Hb;
        cbn [andb]; rewrite ?isNull_positive by assumption; reflexivity
    end.
Qed.

Lemma reportedGeometry_assembled_witness :
  reportedGeometry true implicit_object = Some (mkRectF (inject_Z 3) (inject_Z 4) 10 10).
Proof.
  apply (reportedGeometry_assembled implicit_object).
  left; reflexivity.
Defined.

(** ** C10: the rectangle reported for a scene-graph item *)

Lemma quickCandidate_size env window content globalPos buttonsOnly c r :
  quickCandidate env window content globalPos buttonsOnly = Some c ->
  target c = QuickItemObject r ->
  Rect.width (outRect c) = qMax 1 (qRound (QQuickItem.width (item r))) /\
  Rect.height (outRect c) = qMax 1 (qRound (QQuickItem.height (item r))).
Proof.
  unfold quickCandidate. cbv zeta.
  destruct (findQuickItemAt env _ _ buttonsOnly) as [quickItem|]; [|discriminate].
  destruct (negb (ptr_eqb quickItem _)); [|discriminate].
  intros [= <-]. cbn [target outRect]. intros [= <-].
  pose proof (qMax_qRound_range (QQuickItem.width (item quickItem))).
  pose proof (qMax_qRound_range (QQuickItem.height (item quickItem))).
  split; [apply Rect_make_width | apply Rect_make_height]; lia.
Qed.

Lemma windowCandidate_size env windows globalPos buttonsOnly c r :
  windowCandidate env windows globalPos buttonsOnly = Some c ->
  target c = QuickItemObject r ->
  Rect.width (outRect c) = qMax 1 (qRound (QQuickItem.width (item r))) /\
  Rect.height (outRect c) = qMax 1 (qRound (QQuickItem.height (item r))).
Proof.
  induction windows as [|[window|] rest IH]; cbn [windowCandidate];
    [discriminate| |exact IH].
  destruct (negb (winVisible window)); [exact IH|].
  cbv zeta. destruct (negb (Rect.contains _ globalPos)); [exact IH|].
  destruct (winQuick window) as [|[content|]].
  - intros [= <-]; discriminate.
  - destruct (quickCandidate env window content globalPos buttonsOnly) as [q|] eqn:Hq.
    + intros [= <-]. now apply (quickCandidate_size _ _ _ _ _ _ _ Hq).
    + intros [= <-]; discriminate.
  - intros [= <-]; discriminate.
Qed.

(** C10: when the resolver reports a scene-graph item, the width and the
    height of the rectangle it reports are the rounded width and height of
    the item, raised to 1 when they are smaller; both are at least 1. *)
Theorem quick_item_rect_at_least_one app env screen p globalPos buttonsOnly c r :
  computeHighlightTarget app env screen p globalPos buttonsOnly = Some c ->
  target c = QuickItemObject r ->
  Rect.width (outRect c) = qMax 1 (qRound (QQuickItem.width (item r))) /\
  Rect.height (outRect c) = qMax 1 (qRound (QQuickItem.height (item r))) /\
  1 <= Rect.width (outRect c) /\
  1 <= Rect.height (outRect c).
Proof.
  intros Hc Ht.
  assert (H : Rect.width (outRect c) = qMax 1 (qRound (QQuickItem.width (item r))) /\
              Rect.height (outRect c) = qMax 1 (qRound (QQuickItem.height (item r)))).
  { unfold computeHighlightTarget in Hc.
    destruct (if m_hasWidgetStack p then widgetAt screen globalPos else None).
    - injection Hc as <-. discriminate.
    - destruct (negb (isQGuiApplication app)); [discriminate|].
      now apply (windowCandidate_size _ _ _ _ _ _ Hc). }
  destruct H as [Hw Hh]. rewrite Hw, Hh.
  pose proof (qMax_qRound_range (QQuickItem.width (item r))).
  pose proof (qMax_qRound_range (QQuickItem.height (item r))).
  repeat split; lia.
Qed.

Lemma quick_item_rect_at_least_one_witness :
  let c := mkCandidate (mkRect 120 120 120 179)
                       (QuickItemObject (mkRef thin_line [line_content]))
                       (mkPoint 0 30) in
  Rect.width (outRect c) = qMax 1 (qRound (QQuickItem.width thin_line)) /\
  Rect.height (outRect c) = qMax 1 (qRound (QQuickItem.height thin_line)) /\
  1 <= Rect.width (outRect c) /\
  1 <= Rect.height (outRect c).
Proof.
  apply (quick_item_rect_at_least_one GuiApplication None line_screen
           (Pick_new GuiApplication (Some (mkHandler [])))
           (mkPoint 120 150) false
           (mkCandidate (mkRect 120 120 120 179)
                        (QuickItemObject (mkRef thin_line [line_content]))
                        (mkPoint 0 30))
           (mkRef thin_line [line_content]));
    vm_compute; reflexivity.
Defined.

(** * Further properties of the picker *)

(** ** What [findQuickItemAt] returns *)

(** X1: whatever the mode, an item returned by the pick is visible, enabled
    and of positive opacity, unless [preferButtons] is set and the item is
    button-like. *)
Theorem findQuickItemAt_result_flags env root scenePos preferButtons r :
  findQuickItemAt env root scenePos preferButtons = Some r ->
  flagsOk (item r) = true \/
  (preferButtons = true /\ isButtonLike (item r) = true).
Proof.
  destruct root as [root|]; cbn [findQuickItemAt]; [|discriminate].
  apply findQuickItemAt_rec_flags.
Qed.

Lemma findQuickItemAt_result_flags_witness :
  flagsOk nested_button = true \/
  (true = true /\ isButtonLike nested_button = true).
Proof.
  apply (findQuickItemAt_result_flags None (Some (mkRef nested_scene []))
           (mkPointF 20 20) true (mkRef nested_button [nested_scene])).
  vm_compute; reflexivity.
Defined.

Lemma findQuickItemAt_rec_plain_pickable env scenePos it :
  forall parents r,
    findQuickItemAt_rec env scenePos false parents it = Some r ->
    isPickableItem (Some r) scenePos <> None /\
    descends (mkRef it parents) r.
Proof.
  induction it as [it IH] using QQuickItem_ind_children.
  intros parents r. rewrite findQuickItemAt_rec_eq. unfold pickFrom.
  assert (Hfallback :
            match isPickableItem (Some (mkRef it parents)) scenePos with
            | Some _ => Some (mkRef it parents)
            | None => None
            end = Some r ->
            isPickableItem (Some r) scenePos <> None /\
            descends (mkRef it parents) r).
  { destruct (isPickableItem (Some (mkRef it parents)) scenePos) eqn:E;
      [|discriminate].
    intros [= <-]. split; [congruence|constructor]. }
  destruct (foundHits env scenePos false parents it) as [|c found] eqn:Hf;
    [exact Hfallback|].
  destruct (bestItem _) as [b|] eqn:Hb; [|exact Hfallback].
  intros [= <-]. cbn [refineBest].
  apply rank_bestItem_In in Hb. destruct Hb as [Hb | Hin];
    [destruct (preferLargestArea env); discriminate|].
  rewrite <- Hf in Hin. apply foundHits_In in Hin.
  destruct Hin as (child & Hchild & Hr).
  rewrite Forall_forall in IH. destruct (IH child Hchild _ _ Hr) as [Hp Hd].
  split; [exact Hp|].
  apply (descends_child (mkRef it parents) child b); assumption.
Qed.

(** X2: without [preferButtons], the item returned passes
    [isPickableItem] at the query point: it is visible, enabled, of
    positive opacity, and its own [contains()] accepts the point. *)
Theorem findQuickItemAt_plain_pickable env root scenePos r :
  findQuickItemAt env (Some root) scenePos false = Some r ->
  isPickableItem (Some r) scenePos <> None.
Proof.
  cbn [findQuickItemAt]. intros H.
  now apply findQuickItemAt_rec_plain_pickable in H.
Qed.

Lemma findQuickItemAt_plain_pickable_witness :
  isPickableItem
    (Some (mkRef nested_label [nested_background; nested_button; nested_scene]))
    (mkPointF 20 20) <> None.
Proof.
  apply (findQuickItemAt_plain_pickable None (mkRef nested_scene [])
           (mkPointF 20 20)).
  vm_compute; reflexivity.
Defined.

(** X3: without [preferButtons], the item returned is the root or an item
    of the root's subtree, with the parents it has there; nothing outside
    of the searched subtree is returned. *)
Theorem findQuickItemAt_plain_descends env root scenePos r :
  findQuickItemAt env (Some root) scenePos false = Some r ->
  descends root r.
Proof.
  cbn [findQuickItemAt]. intros H.
  apply findQuickItemAt_rec_plain_pickable in H.
  rewrite ItemRef_eta in H. tauto.
Qed.

Lemma findQuickItemAt_plain_descends_witness :
  descends (mkRef nested_scene [])
    (mkRef nested_label [nested_background; nested_button; nested_scene]).
Proof.
  apply (findQuickItemAt_plain_descends None (mkRef nested_scene [])
           (mkPointF 20 20)).
  vm_compute; reflexivity.
Defined.

(** X4: a root that passes [isPickableItem] and none of whose children
    yields a candidate is itself the result, in both modes; in particular a
    pickable item without children is picked. *)
Theorem findQuickItemAt_fallback_root env (root : ItemRef) scenePos preferButtons :
  isPickableItem (Some root) scenePos <> None ->
  Forall (fun child =>
            findQuickItemAt env
              (Some (mkRef child (item root :: ancestors root)))
              scenePos preferButtons = None)
         (QQuickItem.childItems (item root)) ->
  findQuickItemAt env (Some root) scenePos preferButtons = Some root.
Proof.
  intros Hpick Hkids. cbn [findQuickItemAt] in *.
  rewrite findQuickItemAt_rec_eq, foundHits_nil by exact Hkids.
  cbn [pickFrom]. rewrite ItemRef_eta.
  destruct (isPickableItem (Some root) scenePos); congruence.
Qed.

Lemma findQuickItemAt_fallback_root_witness :
  findQuickItemAt None
    (Some (mkRef nested_label [nested_background; nested_button; nested_scene]))
    (mkPointF 20 20) true
  = Some (mkRef nested_label [nested_background; nested_button; nested_scene]).
Proof.
  apply (findQuickItemAt_fallback_root None
           (mkRef nested_label [nested_background; nested_button; nested_scene])
           (mkPointF 20 20) true).
  - vm_compute; congruence.
  - constructor.
Defined.

(** X5: the candidate list holds exactly the non-null results of the
    recursive calls on the children: none is dropped after a first hit, and
    nothing else is added. *)
Theorem foundHits_exactly_child_hits env scenePos preferButtons parents it r :
  In r (foundHits env scenePos preferButtons parents it) <->
  exists child,
    In child (QQuickItem.childItems it) /\
    findQuickItemAt_rec env scenePos preferButtons (it :: parents) child = Some r.
Proof.
  split; [apply foundHits_In|].
  intros (child & Hin & Hr). unfold foundHits. rewrite in_flat_map.
  exists child. split.
  - rewrite <- in_rev. now apply std_sort_In.
  - rewrite Hr. now left.
Qed.

(** ** The ranking *)

Lemma rankStep_taken_nonempty largest preferButtons scenePos best candidate :
  bestItem (rankStep largest preferButtons scenePos best candidate)
  = bestItem best \/
  (bestItem (rankStep largest preferButtons scenePos best candidate)
   = Some candidate /\
   RectF.isEmpty (sceneRect candidate) = false).
Proof.
  unfold rankStep, sceneRect. cbv zeta.
  destruct (RectF.isEmpty _); [now left|].
  match goal with |- context [if ?b then mkBest _ _ _ else best] => destruct b end;
    [right; now split|now left].
Qed.

Lemma rank_best_nonempty_In largest preferButtons scenePos found :
  forall best b,
    bestItem (fold_left (rankStep largest preferButtons scenePos) found best)
    = Some b ->
    bestItem best = Some b \/
    (In b found /\ RectF.isEmpty (sceneRect b) = false).
Proof.
  induction found as [|c found IH]; intros best b H; cbn in H; [now left|].
  destruct (IH _ _ H) as [Hb | [Hin He]]; [|right; split; [now right|exact He]].
  destruct (rankStep_taken_nonempty largest preferButtons scenePos best c)
    as [E | [E He]]; rewrite E in Hb; [now left|].
  injection Hb as <-. right. split; [now left|exact He].
Qed.

(** X6: the candidate that the ranking selects is one of the candidates it
    was given, and its rectangle in the scene is not empty: a candidate of
    zero width or height is never the best. *)
Theorem rankCandidates_selects_nonempty_candidate env preferButtons scenePos
  found b :
  bestItem (rankCandidates env preferButtons scenePos found) = Some b ->
  In b found /\ RectF.isEmpty (sceneRect b) = false.
Proof.
  intros H. unfold rankCandidates in H.
  apply rank_best_nonempty_In in H. destruct H as [H | H]; [|exact H].
  destruct (preferLargestArea env); discriminate.
Qed.

Lemma rankCandidates_selects_nonempty_candidate_witness :
  In (mkRef tie_square [tie_scene_wide])
     [mkRef tie_band [tie_scene_wide]; mkRef tie_square [tie_scene_wide]] /\
  RectF.isEmpty (sceneRect (mkRef tie_square [tie_scene_wide])) = false.
Proof.
  apply (rankCandidates_selects_nonempty_candidate None false (mkPointF 2 1)
           [mkRef tie_band [tie_scene_wide]; mkRef tie_square [tie_scene_wide]]
           (mkRef tie_square [tie_scene_wide])).
  vm_compute; reflexivity.
Defined.








(** ** The environment variable *)

Lemma pickFrom_env env1 env2 scenePos preferButtons self found :
  preferLargestArea env1 = preferLargestArea env2 ->
  pickFrom env1 scenePos preferButtons self found
  = pickFrom env2 scenePos preferButtons self found.
Proof. intros H. unfold pickFrom. now rewrite H. Qed.

Lemma findQuickItemAt_rec_env env1 env2 scenePos preferButtons it :
  preferLargestArea env1 = preferLargestArea env2 ->
  forall parents,
    findQuickItemAt_rec env1 scenePos preferButtons parents it
    = findQuickItemAt_rec env2 scenePos preferButtons parents it.
Proof.
  intros Henv.
  induction it as [it IH] using QQuickItem_ind_children.
  intros parents. rewrite !findQuickItemAt_rec_unfold.
  rewrite (pickFrom_env env1 env2) by exact Henv. f_equal. f_equal.
  apply map_ext_in. intros child Hchild.
  rewrite Forall_forall in IH. now rewrite (IH child Hchild).
Qed.

(** X8: the pick reads FUNQ_MODE_PICK_LARGEST only to compare it with
    ["1"]: with any other value the result is the one of the unset
    variable. *)
Theorem findQuickItemAt_env_other_value (value : string) root scenePos
  preferButtons :
  value <> "1"%string ->
  findQuickItemAt (Some value) root scenePos preferButtons
  = findQuickItemAt None root scenePos preferButtons.
Proof.
  intros Hv. destruct root as [root|]; [|reflexivity]. cbn [findQuickItemAt].
  apply findQuickItemAt_rec_env. cbn [preferLargestArea].
  now apply String.eqb_neq.
Qed.

Lemma findQuickItemAt_env_other_value_witness :
  findQuickItemAt (Some "true"%string) (Some (mkRef tie_scene_wide []))
                  (mkPointF 2 1) false
  = findQuickItemAt None (Some (mkRef tie_scene_wide [])) (mkPointF 2 1) false.
Proof.
  apply (findQuickItemAt_env_other_value "true" (Some (mkRef tie_scene_wide []))
           (mkPointF 2 1) false).
  discriminate.
Defined.

(** ** The descent and the promotion *)

Lemma childAt_in_In px py children next :
  childAt_in px py children = Some next -> In next children.
Proof.
  induction children as [|c rest IH]; cbn; [discriminate|].
  destruct (childAt_in px py rest) as [later|].
  - intros [= <-]. right. now apply IH.
  - destruct (childAt_hit px py c); [|discriminate].
    intros [= <-]. now left.
Qed.

Lemma flagsOk_false_iff (it : QQuickItem.t) :
  flagsOk it = false <->
  negb (QQuickItem.visible it) || negb (QQuickItem.enabled it)
  || Qle_bool (QQuickItem.opacity it) 0 = true.
Proof.
  unfold flagsOk, Qlt_bool.
  destruct (QQuickItem.visible it), (QQuickItem.enabled it),
    (Qle_bool (QQuickItem.opacity it) 0); cbn; intuition congruence.
Qed.

Lemma deepest_loop_spec scenePos current :
  forall parents,
    let leaf := deepest_loop scenePos parents current in
    descends (mkRef current parents) leaf /\
    match childAt leaf (pfx (mapFromScene leaf scenePos))
                  (pfy (mapFromScene leaf scenePos)) with
    | Some next => flagsOk (item next) = false
    | None => True
    end.
Proof.
  induction current as [current IH] using QQuickItem_ind_children.
  intros parents. cbv zeta. rewrite deepest_loop_eq. cbv zeta.
  destruct (childAt (mkRef current parents) _ _) as [next|] eqn:Hnext.
  - destruct (negb (QQuickItem.visible (item next))
              || negb (QQuickItem.enabled (item next))
              || Qle_bool (QQuickItem.opacity (item next)) 0) eqn:Hbad.
    + split; [constructor|]. rewrite Hnext. now apply flagsOk_false_iff.
    + unfold childAt in Hnext. cbn [item ancestors] in Hnext.
      destruct (childAt_in _ _ (QQuickItem.childItems current)) as [c|] eqn:Hc;
        [|discriminate].
      injection Hnext as <-. cbn [item ancestors].
      apply childAt_in_In in Hc. rewrite Forall_forall in IH.
      destruct (IH c Hc (current :: parents)) as [Hd Hmax].
      split; [|exact Hmax].
      apply (descends_child (mkRef current parents) c); assumption.
  - split; [constructor|]. now rewrite Hnext.
Qed.

(** X9: the item that [deepestItemUnderPoint] returns is the root or an
    item below it, it is visible, enabled and of positive opacity, and the
    descent cannot go on from it: [childAt] finds no child of it under the
    point, or one that is invisible, disabled or of opacity <= 0. *)
Theorem deepestItemUnderPoint_is_deepest (root : ItemRef) scenePos leaf :
  deepestItemUnderPoint (Some root) scenePos = Some leaf ->
  descends root leaf /\
  flagsOk (item leaf) = true /\
  match childAt leaf (pfx (mapFromScene leaf scenePos))
                (pfy (mapFromScene leaf scenePos)) with
  | Some next => flagsOk (item next) = false
  | None => True
  end.
Proof.
  intros H. pose proof (deepestItemUnderPoint_flags _ _ _ H) as Hflags.
  cbn [deepestItemUnderPoint] in H. cbv zeta in H.
  destruct (negb (QQuickItem.visible (item root)) || _ || _ || _);
    [discriminate|].
  injection H as <-.
  destruct (deepest_loop_spec scenePos (item root) (ancestors root)) as [Hd Hmax].
  rewrite ItemRef_eta in Hd. repeat split; assumption.
Qed.

Lemma deepestItemUnderPoint_is_deepest_witness :
  let leaf := mkRef nested_label [nested_background; nested_button; nested_scene] in
  descends (mkRef nested_scene []) leaf /\
  flagsOk (item leaf) = true /\
  match childAt leaf (pfx (mapFromScene leaf (mkPointF 20 20)))
                (pfy (mapFromScene leaf (mkPointF 20 20))) with
  | Some next => flagsOk (item next) = false
  | None => True
  end.
Proof.
  apply (deepestItemUnderPoint_is_deepest (mkRef nested_scene [])
           (mkPointF 20 20)).
  vm_compute; reflexivity.
Defined.

Lemma firstButtonLike_nearest it parents :
  match firstButtonLike it parents with
  | Some button =>
      isButtonLike (item button) = true /\
      exists below,
        it :: parents = below ++ chain button /\
        Forall (fun i => isButtonLike i = false) below
  | None => Forall (fun i => isButtonLike i = false) (it :: parents)
  end.
Proof.
  revert it. induction parents as [|p ps IH]; intros it; cbn [firstButtonLike];
    destruct (isButtonLike it) eqn:E.
  - split; [exact E|]. exists []. split; [reflexivity|constructor].
  - repeat constructor. exact E.
  - split; [exact E|]. exists []. split; [reflexivity|constructor].
  - specialize (IH p). destruct (firstButtonLike p ps) as [button|].
    + destruct IH as (Hb & below & Heq & Hall). split; [exact Hb|].
      exists (it :: below). split; [cbn; now rewrite Heq|now constructor].
    + now constructor.
Qed.

(** X10: [promoteToButtonAncestor] returns the nearest button-like item on
    the way from the leaf up through its parents, the leaf included: the
    items passed before it are not button-like.  When no item on the way is
    button-like, it returns the leaf. *)
Theorem promoteToButtonAncestor_nearest (leaf : ItemRef) :
  let button := promoteToButtonAncestor leaf in
  (isButtonLike (item button) = true /\
   exists below,
     chain leaf = below ++ chain button /\
     Forall (fun i => isButtonLike i = false) below)
  \/
  (button = leaf /\ Forall (fun i => isButtonLike i = false) (chain leaf)).
Proof.
  cbv zeta. unfold promoteToButtonAncestor, chain at 1 3.
  pose proof (firstButtonLike_nearest (item leaf) (ancestors leaf)) as H.
  destruct (firstButtonLike (item leaf) (ancestors leaf)) as [button|].
  - left. exact H.
  - right. split; [reflexivity|exact H].
Qed.

(** * Further properties of the resolver *)

Lemma wrap32_sub_add (g o : Z) : isInt g -> wrap32 (wrap32 (g - o) + o) = g.
Proof.
  intros Hg. rewrite wrap32_add_l.
  replace (g - o + o) with g by lia. now apply wrap32_small.
Qed.

Lemma point_sub_add (g o : QPoint) :
  intPoint g -> point_add (point_sub g o) o = g.
Proof.
  intros [Hx Hy]. destruct g as [gx gy]. unfold point_add, point_sub.
  cbn [ptx pty] in *. now rewrite !wrap32_sub_add.
Qed.

Lemma Rect_make_size (topLeft : QPoint) (s : QSize) :
  intSize s -> Rect.size (Rect.make topLeft s) = s.
Proof.
  intros [Hw Hh]. destruct s as [w h]. unfold Rect.size. cbn [szw szh] in *.
  now rewrite Rect_make_width, Rect_make_height.
Qed.

(** X11: with a widget stack, a widget under the point is the candidate,
    whatever windows there are: the rectangle is the widget's size at the
    widget's place on the screen, and the local point is the global point
    in the widget's coordinates, which [mapToGlobal] takes back to the
    global point. *)
Theorem computeHighlightTarget_widget_first app env screen p globalPos
  buttonsOnly w :
  m_hasWidgetStack p = true ->
  widgetAt screen globalPos = Some w ->
  intPoint globalPos -> intPoint (wOrigin w) -> intSize (wSize w) ->
  exists c,
    computeHighlightTarget app env screen p globalPos buttonsOnly = Some c /\
    target c = WidgetObject w /\
    outRect c = Rect.make (wOrigin w) (wSize w) /\
    localPos c = Widget.mapFromGlobal w globalPos /\
    Widget.mapToGlobal w (localPos c) = globalPos.
Proof.
  intros Hstack Hw Hg [Hox Hoy] Hs. unfold computeHighlightTarget.
  rewrite Hstack, Hw. eexists. split; [reflexivity|].
  cbn [target outRect localPos]. repeat split.
  - unfold Widget.rect. rewrite Rect_make_size by exact Hs.
    unfold Widget.mapToGlobal, point_add, Rect.topLeft, Rect.make.
    cbn [x1 y1 ptx pty]. rewrite !Z.add_0_l, !wrap32_small by assumption.
    now destruct (wOrigin w).
  - unfold Widget.mapToGlobal, Widget.mapFromGlobal. now apply point_sub_add.
Qed.

Lemma computeHighlightTarget_widget_first_witness :
  exists c,
    computeHighlightTarget WidgetApplication None widget_screen picker_started
                           (mkPoint 50 50) false = Some c /\
    target c = WidgetObject square_widget /\
    outRect c = Rect.make (wOrigin square_widget) (wSize square_widget) /\
    localPos c = Widget.mapFromGlobal square_widget (mkPoint 50 50) /\
    Widget.mapToGlobal square_widget (localPos c) = mkPoint 50 50.
Proof.
  apply (computeHighlightTarget_widget_first WidgetApplication None
           widget_screen picker_started (mkPoint 50 50) false square_widget);
    try reflexivity; unfold intPoint, intSize, isInt; cbn; lia.
Defined.

Lemma windowCandidate_window_target env windows globalPos buttonsOnly c w :
  windowCandidate env windows globalPos buttonsOnly = Some c ->
  target c = WindowObject w ->
  In (Some w) windows /\
  windowHit w globalPos = true /\
  outRect c = windowRect w /\
  localPos c = point_sub globalPos (Rect.topLeft (windowRect w)).
Proof.
  assert (Hskip : forall (ow : option QWindow) rest,
             (In (Some w) rest /\
              windowHit w globalPos = true /\
              outRect c = windowRect w /\
              localPos c = point_sub globalPos (Rect.topLeft (windowRect w))) ->
             In (Some w) (ow :: rest) /\
             windowHit w globalPos = true /\
             outRect c = windowRect w /\
             localPos c = point_sub globalPos (Rect.topLeft (windowRect w)))
    by (intros ow rest (? & ?); split; [now right|assumption]).
  induction windows as [|[window|] rest IH]; cbn [windowCandidate];
    [discriminate| |intros H1 H2; apply Hskip; now apply IH].
  fold (windowRect window).
  destruct (winVisible window) eqn:Hv; cbn [negb];
    [|intros H1 H2; apply Hskip; now apply IH].
  cbv zeta.
  destruct (Rect.contains (windowRect window) globalPos) eqn:Hc; cbn [negb];
    [|intros H1 H2; apply Hskip; now apply IH].
  assert (Hhit : windowHit window globalPos = true)
    by (unfold windowHit; now rewrite Hv, Hc).
  assert (Hquick : forall q, quickCandidate env window q globalPos buttonsOnly
                             = Some c -> target c <> WindowObject w).
  { intros q Hq. unfold quickCandidate in Hq. cbv zeta in Hq.
    destruct (findQuickItemAt env _ _ buttonsOnly); [|discriminate].
    destruct (negb (ptr_eqb _ _)); [|discriminate].
    injection Hq as <-. discriminate. }
  assert (Hwin : Some (mkCandidate (windowRect window) (WindowObject window)
                         (point_sub globalPos (Rect.topLeft (windowRect window))))
                 = Some c ->
                 target c = WindowObject w ->
                 In (Some w) (Some window :: rest) /\
                 windowHit w globalPos = true /\
                 outRect c = windowRect w /\
                 localPos c = point_sub globalPos (Rect.topLeft (windowRect w))).
  { intros [= <-]. cbn [target outRect localPos]. intros [= <-].
    repeat split; [now left|exact Hhit]. }
  destruct (winQuick window) as [|[content|]]; try exact Hwin.
  destruct (quickCandidate env window content globalPos buttonsOnly) eqn:Hq;
    [|exact Hwin].
  intros [= ->] Ht. now apply Hquick in Hq.
Qed.

(** X12: a window is reported only if it is one of the top-level windows,
    visible, and its rectangle on the screen holds the global point; the
    rectangle reported is that rectangle, and the local point is the global
    point counted from its top-left corner, so that adding the corner gives
    the global point back. *)
Theorem computeHighlightTarget_window_target app env screen p globalPos
  buttonsOnly c w :
  computeHighlightTarget app env screen p globalPos buttonsOnly = Some c ->
  target c = WindowObject w ->
  intPoint globalPos ->
  In (Some w) (topLevelWindows screen) /\
  windowHit w globalPos = true /\
  outRect c = windowRect w /\
  point_add (localPos c) (Rect.topLeft (windowRect w)) = globalPos.
Proof.
  intros Hc Ht Hg. unfold computeHighlightTarget in Hc.
  destruct (if m_hasWidgetStack p then widgetAt screen globalPos else None).
  - injection Hc as <-. discriminate.
  - destruct (negb (isQGuiApplication app)); [discriminate|].
    destruct (windowCandidate_window_target _ _ _ _ _ _ Hc Ht)
      as (Hin & Hhit & Hrect & Hpos).
    repeat split; try assumption.
    rewrite Hpos. now apply point_sub_add.
Qed.

Lemma computeHighlightTarget_window_target_witness :
  let c := mkCandidate (windowRect plain_window) (WindowObject plain_window)
                       (mkPoint 20 50) in
  In (Some plain_window) (topLevelWindows plain_screen) /\
  windowHit plain_window (mkPoint 120 150) = true /\
  outRect c = windowRect plain_window /\
  point_add (localPos c) (Rect.topLeft (windowRect plain_window))
  = mkPoint 120 150.
Proof.
  apply (computeHighlightTarget_window_target GuiApplication None plain_screen
           (Pick_new GuiApplication None) (mkPoint 120 150) false
           (mkCandidate (windowRect plain_window) (WindowObject plain_window)
                        (mkPoint 20 50))
           plain_window).
  - vm_compute; reflexivity.
  - reflexivity.
  - unfold intPoint, isInt; cbn; lia.
Defined.

Lemma windowCandidate_none_iff env windows globalPos buttonsOnly :
  windowCandidate env windows globalPos buttonsOnly = None <->
  Forall (fun ow => match ow with
                    | Some w => windowHit w globalPos = false
                    | None => True
                    end) windows.
Proof.
  induction windows as [|[window|] rest IH]; cbn [windowCandidate].
  - split; [constructor|reflexivity].
  - fold (windowRect window). unfold windowHit at 1.
    destruct (winVisible window) eqn:Hv; cbn [negb].
    + cbv zeta.
      destruct (Rect.contains (windowRect window) globalPos) eqn:Hc; cbn [negb].
      * split.
        -- destruct (match winQuick window with
                     | QuickWindow (Some content) =>
                         quickCandidate env window content globalPos buttonsOnly
                     | _ => None
                     end); discriminate.
        -- intros H. inversion H as [|? ? Hhit _]; subst.
           unfold windowHit in Hhit. rewrite Hv, Hc in Hhit. discriminate.
      * rewrite IH. split; intros H.
        -- constructor; [unfold windowHit; now rewrite Hv, Hc|exact H].
        -- now inversion H.
    + rewrite IH. split; intros H.
      * constructor; [unfold windowHit; now rewrite Hv|exact H].
      * now inversion H.
  - rewrite IH. split; intros H; [now constructor|now inversion H].
Qed.

(** X13: the resolver finds nothing exactly when the widget stack (if any)
    has no widget at the point and, moreover, there is no GUI application
    or no top-level window that is visible and holds the point: a visible
    window under the point is always reported, if nothing better is. *)
Theorem computeHighlightTarget_none_iff app env screen p globalPos buttonsOnly :
  computeHighlightTarget app env screen p globalPos buttonsOnly = None <->
  (m_hasWidgetStack p = false \/ widgetAt screen globalPos = None) /\
  (isQGuiApplication app = false \/
   Forall (fun ow => match ow with
                     | Some w => windowHit w globalPos = false
                     | None => True
                     end) (topLevelWindows screen)).
Proof.
  unfold computeHighlightTarget.
  destruct (m_hasWidgetStack p); [destruct (widgetAt screen globalPos)|].
  - split; [discriminate|]. intros [[H | H] _]; discriminate.
  - destruct (isQGuiApplication app); cbn [negb].
    + rewrite windowCandidate_none_iff. split; [intros H|intros [_ [H | H]]];
        [split; [now right|now right]|discriminate|exact H].
    + split; [intros _; split; [now right|now left]|reflexivity].
  - destruct (isQGuiApplication app); cbn [negb].
    + rewrite windowCandidate_none_iff. split; [intros H|intros [_ [H | H]]];
        [split; [now left|now right]|discriminate|exact H].
    + split; [intros _; split; [now left|now left]|reflexivity].
Qed.

Lemma windowCandidate_quick_target env windows globalPos buttonsOnly c r :
  windowCandidate env windows globalPos buttonsOnly = Some c ->
  target c = QuickItemObject r ->
  exists window content,
    In (Some window) windows /\
    windowHit window globalPos = true /\
    winQuick window = QuickWindow (Some content) /\
    findQuickItemAt env (Some (mkRef content []))
                    (toPointF (Window.mapFromGlobal window globalPos))
                    buttonsOnly = Some r /\
    ptr_eqb r (mkRef content []) = false.
Proof.
  induction windows as [|[window|] rest IH]; cbn [windowCandidate];
    [discriminate| |intros H1 H2; destruct (IH H1 H2) as (w' & c' & ? & ?);
                      exists w', c'; split; [now right|assumption]].
  fold (windowRect window).
  destruct (winVisible window) eqn:Hv; cbn [negb];
    [|intros H1 H2; destruct (IH H1 H2) as (w' & c' & ? & ?);
        exists w', c'; split; [now right|assumption]].
  cbv zeta.
  destruct (Rect.contains (windowRect window) globalPos) eqn:Hc; cbn [negb];
    [|intros H1 H2; destruct (IH H1 H2) as (w' & c' & ? & ?);
        exists w', c'; split; [now right|assumption]].
  destruct (winQuick window) as [|[content|]] eqn:Hq;
    try (intros [= <-]; discriminate).
  destruct (quickCandidate env window content globalPos buttonsOnly) as [q|] eqn:Hqc;
    [|intros [= <-]; discriminate].
  intros [= ->] Ht. exists window, content.
  unfold quickCandidate in Hqc. cbv zeta in Hqc.
  destruct (findQuickItemAt env _ _ buttonsOnly) as [quickItem|] eqn:Hfind;
    [|discriminate].
  destruct (ptr_eqb quickItem (mkRef content [])) eqn:Hptr; cbn [negb] in Hqc;
    [discriminate|].
  injection Hqc as <-. cbn [target] in Ht. injection Ht as <-.
  repeat split; try assumption; [now left|].
  unfold windowHit. now rewrite Hv, Hc.
Qed.

Lemma computeHighlightTarget_quick_inv app env screen p globalPos
  buttonsOnly c r :
  computeHighlightTarget app env screen p globalPos buttonsOnly = Some c ->
  target c = QuickItemObject r ->
  exists window content,
    In (Some window) (topLevelWindows screen) /\
    windowHit window globalPos = true /\
    winQuick window = QuickWindow (Some content) /\
    findQuickItemAt env (Some (mkRef content []))
                    (toPointF (Window.mapFromGlobal window globalPos))
                    buttonsOnly = Some r /\
    ptr_eqb r (mkRef content []) = false.
Proof.
  intros Hc Ht. unfold computeHighlightTarget in Hc.
  destruct (if m_hasWidgetStack p then widgetAt screen globalPos else None).
  - injection Hc as <-. discriminate.
  - destruct (negb (isQGuiApplication app)); [discriminate|].
    now apply (windowCandidate_quick_target _ _ _ _ _ _ Hc).
Qed.

(** X14: a scene-graph item is reported only for a visible scene-graph
    window that holds the point; it is what [findQuickItemAt] returns for
    the window's content item at the point in window coordinates, and it is
    never the content item itself. *)
Theorem computeHighlightTarget_quick_target app env screen p globalPos
  buttonsOnly c r :
  computeHighlightTarget app env screen p globalPos buttonsOnly = Some c ->
  target c = QuickItemObject r ->
  exists window content,
    In (Some window) (topLevelWindows screen) /\
    windowHit window globalPos = true /\
    winQuick window = QuickWindow (Some content) /\
    findQuickItemAt env (Some (mkRef content []))
                    (toPointF (Window.mapFromGlobal window globalPos))
                    buttonsOnly = Some r /\
    ptr_eqb r (mkRef content []) = false.
Proof. apply computeHighlightTarget_quick_inv. Qed.

Lemma computeHighlightTarget_quick_target_witness :
  exists window content,
    In (Some window) (topLevelWindows line_screen) /\
    windowHit window (mkPoint 120 150) = true /\
    winQuick window = QuickWindow (Some content) /\
    findQuickItemAt None (Some (mkRef content []))
                    (toPointF (Window.mapFromGlobal window (mkPoint 120 150)))
                    false = Some (mkRef thin_line [line_content]) /\
    ptr_eqb (mkRef thin_line [line_content]) (mkRef content []) = false.
Proof.
  apply (computeHighlightTarget_quick_target GuiApplication None line_screen
           (Pick_new GuiApplication (Some (mkHandler [])))
           (mkPoint 120 150) false
           (mkCandidate (mkRect 120 120 120 179)
                        (QuickItemObject (mkRef thin_line [line_content]))
                        (mkPoint 0 30))
           (mkRef thin_line [line_content]));
    vm_compute; reflexivity.
Defined.

(** X15: without Alt (buttonsOnly unset), a scene-graph item that the
    resolver reports is visible, enabled, of positive opacity and contains
    the point, and it lies in the scene of a window under the point. *)
Theorem reported_item_pickable app env screen p globalPos c r :
  computeHighlightTarget app env screen p globalPos false = Some c ->
  target c = QuickItemObject r ->
  exists window content,
    In (Some window) (topLevelWindows screen) /\
    winQuick window = QuickWindow (Some content) /\
    descends (mkRef content []) r /\
    isPickableItem (Some r)
      (toPointF (Window.mapFromGlobal window globalPos)) <> None.
Proof.
  intros Hc Ht.
  destruct (computeHighlightTarget_quick_inv _ _ _ _ _ _ _ _ Hc Ht)
    as (window & content & Hin & _ & Hq & Hfind & _).
  exists window, content. cbn [findQuickItemAt ancestors item] in Hfind.
  apply findQuickItemAt_rec_plain_pickable in Hfind.
  repeat split; try assumption; tauto.
Qed.

Lemma reported_item_pickable_witness :
  exists window content,
    In (Some window) (topLevelWindows line_screen) /\
    winQuick window = QuickWindow (Some content) /\
    descends (mkRef content []) (mkRef thin_line [line_content]) /\
    isPickableItem (Some (mkRef thin_line [line_content]))
      (toPointF (Window.mapFromGlobal window (mkPoint 120 150))) <> None.
Proof.
  apply (reported_item_pickable GuiApplication None line_screen
           (Pick_new GuiApplication (Some (mkHandler [])))
           (mkPoint 120 150)
           (mkCandidate (mkRect 120 120 120 179)
                        (QuickItemObject (mkRef thin_line [line_content]))
                        (mkPoint 0 30))
           (mkRef thin_line [line_content]));
    vm_compute; reflexivity.
Defined.

(** * Further properties of the event router *)

(** X16: [handleEvent] consumes an event (returns [true]) exactly when the
    picker has a handler and the event is a mouse press or release with
    Shift and Ctrl both held; moves, other events and events without both
    modifiers are passed on. *)
Theorem handleEvent_consumes_iff app env screen p receiver event :
  fst (handleEvent app env screen p receiver event)
  = isNonNull (m_handler p)
    && (isPress (type event) || isRelease (type event))
    && highlightModeOf event.
Proof.
  unfold handleEvent, highlightModeOf.
  destruct (m_handler p); cbn [isNonNull negb andb]; [|reflexivity].
  destruct (type event); cbn [isMouseEvent isPress isRelease orb andb];
    try reflexivity;
    destruct (ShiftModifier (modifiers event) && ControlModifier (modifiers event));
    reflexivity.
Qed.

Lemma handleEvent_other app env screen p receiver event :
  isNonNull (m_handler p) && isMouseEvent (type event) = false ->
  snd (handleEvent app env screen p receiver event) = p.
Proof.
  unfold handleEvent. destruct (m_handler p); cbn [isNonNull negb andb];
    [|reflexivity].
  intros ->. reflexivity.
Qed.

Lemma updateHighlight_handler p highlightMode candidate :
  m_handler (updateHighlight p highlightMode candidate) = m_handler p.
Proof. apply updateHighlight_backend. Qed.

Lemma reportPress_reports p highlightMode candidate receiver event h :
  m_handler p = Some h ->
  exists call,
    m_handler (reportPress p highlightMode candidate receiver event)
    = Some (mkHandler (handled h ++ [call])).
Proof.
  intros Hh. unfold reportPress. cbv zeta.
  match goal with
  | |- context [let '(t, at_) := ?e in _] => destruct e as [t at_]
  end.
  unfold callHandler. rewrite Hh. eexists. reflexivity.
Qed.

(** One event: the calls received before stay, and one call is added for
    a press with Ctrl+Shift handled by a picker with a handler. *)
Lemma handleEvent_reports app env screen p receiver event :
  exists calls,
    reports (snd (handleEvent app env screen p receiver event))
    = reports p ++ calls /\
    List.length calls
    = (if isNonNull (m_handler p) && isReportingPress event then 1 else 0)%nat /\
    isNonNull (m_handler (snd (handleEvent app env screen p receiver event)))
    = isNonNull (m_handler p).
Proof.
  destruct (isNonNull (m_handler p) && isMouseEvent (type event)) eqn:Hm.
  - apply andb_true_iff in Hm. destruct Hm as [Hh Hm].
    destruct (m_handler p) as [h|] eqn:Eh; [|discriminate].
    rewrite handleEvent_mouse by congruence. cbv zeta.
    unfold isReportingPress. cbn [isNonNull andb].
    set (c := candidateOf app env screen p event).
    pose proof (updateHighlight_handler p (highlightModeOf event) c) as Hu.
    rewrite Eh in Hu.
    destruct (isPress (type event) && highlightModeOf event).
    + destruct (reportPress_reports _ (highlightModeOf event) c receiver event h Hu)
        as [call Hcall].
      exists [call]. unfold reports. rewrite Hcall, Eh. repeat split.
    + exists []. unfold reports. rewrite Hu, Eh, app_nil_r. repeat split.
  - rewrite handleEvent_other by exact Hm. exists []. rewrite app_nil_r.
    repeat split.
    destruct (m_handler p); cbn [isNonNull andb] in *; [|reflexivity].
    unfold isReportingPress. destruct (type event); try discriminate.
    reflexivity.
Qed.

(** X17: over any sequence of events, the handler keeps the calls it had
    received and receives exactly one more for each press with Shift and
    Ctrl held; moves, releases, presses without both modifiers and other
    events add none.  A picker without handler never reports. *)
Theorem runEvents_one_report_per_press app env p ds :
  exists calls,
    reports (runEvents app env p ds) = reports p ++ calls /\
    List.length calls
    = (if isNonNull (m_handler p)
       then List.length (filter isReportingPress (map dEvent ds))
       else 0)%nat.
Proof.
  revert p. induction ds as [|d ds IH]; intros p; cbn [runEvents fold_left].
  - exists []. rewrite app_nil_r. split; [reflexivity|].
    now destruct (isNonNull (m_handler p)).
  - destruct (handleEvent_reports app env (dScreen d) p (dReceiver d) (dEvent d))
      as (calls1 & H1 & L1 & Hh).
    destruct (IH (snd (handleEvent app env (dScreen d) p (dReceiver d) (dEvent d))))
      as (calls2 & H2 & L2).
    exists (calls1 ++ calls2). unfold runEvents in H2.
    rewrite H2, H1, <- app_assoc. split; [reflexivity|].
    rewrite List.length_app, L1, L2, Hh. cbn [map filter].
    destruct (isNonNull (m_handler p)); cbn [andb]; [|reflexivity].
    destruct (isReportingPress (dEvent d)); reflexivity.
Qed.

Lemma overlay_kind_kept (o : HighlightOverlay) (r : QRect) :
  overlayKind (Overlay.showRect o r) = overlayKind o /\
  overlayKind (Overlay.hide o) = overlayKind o.
Proof.
  unfold Overlay.showRect, Overlay.hide.
  destruct o as [k g v]; destruct v; split; reflexivity.
Qed.

Lemma updateHighlight_overlay_kind p highlightMode candidate :
  option_map overlayKind
    (m_highlightOverlay (updateHighlight p highlightMode candidate))
  = option_map overlayKind (m_highlightOverlay p).
Proof.
  unfold updateHighlight, showHighlight, hideHighlight.
  destruct highlightMode, (isNonNull candidate),
    (m_highlightOverlay p) as [o|] eqn:E; cbn; rewrite ?E; cbn;
    try reflexivity; f_equal;
    first [ apply (proj1 (overlay_kind_kept _ _))
          | apply (proj2 (overlay_kind_kept o (mkRect 0 0 0 0))) ].
Qed.

Lemma handleEvent_overlay_kind app env screen p receiver event :
  option_map overlayKind
    (m_highlightOverlay (snd (handleEvent app env screen p receiver event)))
  = option_map overlayKind (m_highlightOverlay p).
Proof.
  destruct (isNonNull (m_handler p) && isMouseEvent (type event)) eqn:Hm;
    [|now rewrite handleEvent_other].
  apply andb_true_iff in Hm. destruct Hm as [Hh Hm].
  rewrite handleEvent_mouse by (try assumption; now destruct (m_handler p)).
  cbv zeta. set (c := candidateOf app env screen p event).
  destruct (isPress (type event) && highlightModeOf event);
    [|apply updateHighlight_overlay_kind].
  destruct (reportPress_fields (updateHighlight p (highlightModeOf event) c)
              (highlightModeOf event) c receiver event) as (E & _).
  rewrite E. apply updateHighlight_overlay_kind.
Qed.

(** X18: the backend chosen by the constructor stays for the life of the
    picker: after any events, the widget stack is used exactly in a widget
    application, and the overlay is the widget overlay in a widget
    application, the window overlay in another GUI application, and absent
    otherwise. *)
Theorem reachable_backend_fixed app env p :
  reachable app env p ->
  m_hasWidgetStack p = isQApplication app /\
  option_map overlayKind (m_highlightOverlay p) = overlayFor app.
Proof.
  induction 1 as [handler | p screen receiver event Hp [IH1 IH2]].
  - destruct app; split; reflexivity.
  - destruct (handleEvent_backend app env screen p receiver event) as [H1 _].
    rewrite H1, handleEvent_overlay_kind. now split.
Qed.

Lemma reachable_backend_fixed_witness :
  m_hasWidgetStack picker_idle_again = isQApplication WidgetApplication /\
  option_map overlayKind (m_highlightOverlay picker_idle_again)
  = overlayFor WidgetApplication.
Proof.
  apply (reachable_backend_fixed WidgetApplication None picker_idle_again).
  apply reachable_event, reachable_event, reachable_new.
Defined.

Lemma updateHighlight_target_set p highlightMode candidate :
  isNonNull (m_highlightTarget (updateHighlight p highlightMode candidate))
  = highlightMode && isNonNull candidate.
Proof.
  unfold updateHighlight, showHighlight, hideHighlight.
  destruct highlightMode, candidate as [c|], (m_highlightOverlay p); reflexivity.
Qed.

(** X19: in every picker that events can lead to, a target is remembered
    exactly when the overlay is on screen: there is no highlighted target
    without a visible highlight, and no visible highlight without a
    target. *)
Theorem reachable_target_iff_overlay app env p :
  reachable app env p ->
  isNonNull (m_highlightTarget p) = overlayShown p.
Proof.
  induction 1 as [handler | p screen receiver event Hp IH].
  - destruct app; reflexivity.
  - destruct (isNonNull (m_handler p) && isMouseEvent (type event)) eqn:Hm;
      [|now rewrite handleEvent_other].
    apply andb_true_iff in Hm. destruct Hm as [Hh Hm].
    destruct (reachable_backend _ _ _ Hp) as [Hstack Hover].
    rewrite handleEvent_mouse by (try assumption; now destruct (m_handler p)).
    cbv zeta. set (c := candidateOf app env screen p event).
    assert (Hp1 : isNonNull (m_highlightTarget
                               (updateHighlight p (highlightModeOf event) c))
                  = overlayShown (updateHighlight p (highlightModeOf event) c)).
    { rewrite updateHighlight_target_set.
      destruct (isQGuiApplication app) eqn:Hg.
      - now rewrite updateHighlight_overlay.
      - assert (Hc : c = None).
        { apply computeHighlightTarget_no_gui; [|assumption].
          rewrite Hstack. now destruct app. }
        rewrite Hc, andb_false_r.
        destruct (updateHighlight_backend p (highlightModeOf event) None)
          as (_ & _ & E).
        rewrite Hover in E. unfold overlayShown.
        now destruct (m_highlightOverlay
                        (updateHighlight p (highlightModeOf event) None)). }
    destruct (isPress (type event) && highlightModeOf event); [|exact Hp1].
    destruct (reportPress_fields (updateHighlight p (highlightModeOf event) c)
                (highlightModeOf event) c receiver event) as (E1 & _ & E3 & _).
    unfold overlayShown in *. now rewrite E1, E3.
Qed.

Lemma reachable_target_iff_overlay_witness :
  isNonNull (m_highlightTarget picker_highlighting)
  = overlayShown picker_highlighting.
Proof.
  apply (reachable_target_iff_overlay WidgetApplication None picker_highlighting).
  apply reachable_event, reachable_new.
Defined.

(** X20: after a mouse event with Shift and Ctrl held for which a candidate
    is found, the picker remembers the candidate's target and local point,
    and the overlay, if there is one, is on screen with the candidate's
    rectangle as its geometry. *)
Theorem highlight_remembers_candidate app env screen p receiver event c :
  m_handler p <> None ->
  isMouseEvent (type event) = true ->
  highlightModeOf event = true ->
  candidateOf app env screen p event = Some c ->
  let after := snd (handleEvent app env screen p receiver event) in
  m_highlightTarget after = Some (target c) /\
  m_highlightPos after = localPos c /\
  forall o, m_highlightOverlay after = Some o ->
            overlayGeometry o = outRect c /\ overlayVisible o = true.
Proof.
  intros Hh Hm Hmode Hc. cbv zeta.
  rewrite handleEvent_mouse by assumption. cbv zeta. rewrite Hmode, Hc.
  assert (Hp1 : let p1 := updateHighlight p true (Some c) in
                m_highlightTarget p1 = Some (target c) /\
                m_highlightPos p1 = localPos c /\
                forall o, m_highlightOverlay p1 = Some o ->
                          overlayGeometry o = outRect c /\ overlayVisible o = true).
  { unfold updateHighlight, showHighlight. cbn [isNonNull andb option_map].
    cbv zeta.
    destruct (m_highlightOverlay p) as [[k g v]|] eqn:E;
      cbn [m_highlightTarget m_highlightPos m_highlightOverlay].
    - split; [reflexivity|split; [reflexivity|]].
      intros o [= <-]. unfold Overlay.showRect.
      destruct v; split; reflexivity.
    - split; [reflexivity|split; [reflexivity|]].
      intros o Ho. rewrite E in Ho. discriminate. }
  cbv zeta in Hp1.
  destruct (isPress (type event) && true); [|exact Hp1].
  destruct (reportPress_fields (updateHighlight p true (Some c)) true (Some c)
              receiver event) as (E1 & _ & E3 & E4).
  now rewrite E1, E3, E4.
Qed.

Lemma highlight_remembers_candidate_witness :
  m_highlightTarget picker_highlighting = Some (WidgetObject square_widget) /\
  m_highlightPos picker_highlighting = mkPoint 50 50 /\
  forall o, m_highlightOverlay picker_highlighting = Some o ->
            overlayGeometry o = Rect.make (mkPoint 0 0) (mkSize 100 100) /\
            overlayVisible o = true.
Proof.
  apply (highlight_remembers_candidate WidgetApplication None widget_screen
           picker_started (Some (WidgetObject square_widget))
           (mouseAt MouseMove true true false 50 50)
           (mkCandidate (Rect.make (mkPoint 0 0) (mkSize 100 100))
                        (WidgetObject square_widget) (mkPoint 50 50))).
  - discriminate.
  - reflexivity.
  - reflexivity.
  - vm_compute; reflexivity.
Defined.

(** X21: the overlay operations compose as a switch: of two [showRect] the
    last geometry stays, [hide] twice is [hide] once, a [showRect] after a
    [hide] is a plain [showRect], and a [hide] after a [showRect] leaves an
    invisible overlay that keeps the geometry. *)
Theorem overlay_operations_compose (o : HighlightOverlay) (r1 r2 : QRect) :
  Overlay.showRect (Overlay.showRect o r1) r2 = Overlay.showRect o r2 /\
  Overlay.hide (Overlay.hide o) = Overlay.hide o /\
  Overlay.showRect (Overlay.hide o) r1 = Overlay.showRect o r1 /\
  Overlay.hide (Overlay.showRect o r1)
  = mkOverlay (overlayKind o) r1 false.
Proof.
  unfold Overlay.showRect, Overlay.hide.
  destruct o as [k g v]; destruct v; repeat split.
Qed.

Example sample_session_reports :
  map callPos (reports (runEvents WidgetApplication None picker_started
                                  sample_session))
  = [mkPoint 50 50; mkPoint 60 60].
Proof. reflexivity. Qed.

(** * Further properties of the reporter *)

(** X22: a [geometry] property that converts to a rectangle or to a map
    decides the geometry line alone: two objects with the same such
    property get the same line, whatever their [x], [y], [width],
    [height], [implicitWidth] and [implicitHeight]. *)
Theorem reportedGeometry_geometry_first m_showGeometry (object1 object2 : ReportedObject) :
  property object1 "geometry" = property object2 "geometry" ->
  Variant.canConvertRect (property object1 "geometry") = true \/
  Variant.canConvertMap (property object1 "geometry") = true ->
  reportedGeometry m_showGeometry object1 = reportedGeometry m_showGeometry object2.
Proof.
  intros Heq Hconv. unfold reportedGeometry. cbv zeta. rewrite <- Heq.
  destruct m_showGeometry; [|reflexivity].
  destruct (property object1 "geometry");
    cbn [Variant.canConvertRect Variant.canConvertMap] in Hconv;
    destruct Hconv; try discriminate; reflexivity.
Qed.

Lemma reportedGeometry_geometry_first_witness :
  reportedGeometry true (mapped_object 0) = reportedGeometry true (mapped_object 7).
Proof.
  apply (reportedGeometry_geometry_first true (mapped_object 0) (mapped_object 7)).
  - reflexivity.
  - right; reflexivity.
Defined.
